(** * The server binding of grpc-native-core (ext/server.cc)

    A shallow embedding of [packages/grpc-native-core/ext/server.cc]: the
    [Server] wrapper object, the two [Op] subclasses declared in that file
    ([ServerShutdownOp] and [NewCallOp]) and the methods exported to the
    host ([New], [RequestCall], [AddHttp2Port], [Start], [TryShutdown],
    [ForceShutdown]).

    The methods are written in a state-and-exception monad over a [World]
    that holds the C++ [Server] objects (keyed by the host object that wraps
    them) and the log of calls made to the native library.  What the native
    library answers is not decided by this file; it is read from a
    [NativeEngine] instance. *)

From Stdlib Require Import ZArith List.
From stdpp Require Import base strings gmap list.
Import ListNotations.

Local Open Scope string_scope.
Local Open Scope list_scope.
Local Set Warnings "-register-all".

(** ** Native data (grpc/grpc.h) *)

(** Opaque native pointers, identified by a number. *)
Definition grpc_server := nat.
Definition grpc_call := nat.
Definition grpc_server_credentials := nat.

(** [grpc_call_error] is a C enum; the value is kept as its integer code. *)
Definition grpc_call_error := Z.

(** A slice is a byte string. *)
Definition grpc_slice := string.

(** A C [double], kept as its 64-bit pattern; no arithmetic is done on it here. *)
Record double := { double_bits : Z }.

Record gpr_timespec := {
  tv_sec : Z;
  tv_nsec : Z;
  clock_type : nat
}.

Record grpc_call_details := {
  method : grpc_slice;
  host : grpc_slice;
  deadline : gpr_timespec
}.

(** [count] metadata elements, each a key slice and a value slice. *)
Definition grpc_metadata_array := list (grpc_slice * grpc_slice).

(** One channel argument: a string key with an integer or a string value. *)
Inductive grpc_arg_value :=
| GRPC_ARG_INTEGER (i : Z)
| GRPC_ARG_STRING (s : string).

Definition grpc_channel_args := list (string * grpc_arg_value).

(** What [grpc_call_details_init] and [grpc_metadata_array_init] leave behind. *)
Definition grpc_call_details_init : grpc_call_details :=
  {| method := ""; host := "";
     deadline := {| tv_sec := 0; tv_nsec := 0; clock_type := 0 |} |}.

Definition grpc_metadata_array_init : grpc_metadata_array := [].

(** ** Host values (v8::Value) *)

(** A property name of a host object: a string or a symbol. *)
Inductive PropertyKey :=
| PString (s : string)
| PSymbol (id : nat).

(** The host values this file creates or inspects. *)
Inductive Value :=
| VUndefined
| VNull
| VNumber (n : Z)
| VString (s : string)
| VDate (ms : double)
| VFunction (f : nat)                 (* a function of the host program *)
| VShutdownCb                         (* the function made from ShutdownCallback *)
| VCall (c : grpc_call)               (* a Call object wrapping a native call *)
| VServer (obj : nat)                 (* an instance of the Server template *)
| VServerCredentials (creds : option grpc_server_credentials)
                                      (* a ServerCredentials object; None wraps NULL *)
| VObject (props : list (PropertyKey * Value))
| VOther (tag : nat).                 (* any other host value *)

#[global] Instance PropertyKey_eq_dec : EqDecision PropertyKey.
Proof. solve_decision. Defined.

Definition IsNull (v : Value) : bool :=
  match v with VNull => true | _ => false end.

Definition IsString (v : Value) : bool :=
  match v with VString _ => true | _ => false end.

Definition IsFunction (v : Value) : bool :=
  match v with VFunction _ | VShutdownCb => true | _ => false end.

(** [Nan::New<Object>()] and [Nan::Set(obj, key, value)]: an existing property
    is overwritten in place, a new one is added after the others. *)
Definition New_Object : list (PropertyKey * Value) := [].

Fixpoint Nan_Set (obj : list (PropertyKey * Value)) (key : PropertyKey) (v : Value)
  : list (PropertyKey * Value) :=
  match obj with
  | [] => [(key, v)]
  | (k, old) :: rest =>
      if decide (k = key) then (k, v) :: rest else (k, old) :: Nan_Set rest key v
  end.

(** The arguments of a host-to-native call ([Nan::FunctionCallbackInfo]);
    an index past the end reads as undefined. *)
Record FunctionCallbackInfo := {
  IsConstructCall : bool;
  This : Value;
  args : list Value
}.

Definition arg (info : FunctionCallbackInfo) (i : nat) : Value :=
  nth i (args info) VUndefined.

(** What a method leaves pending when it does not return normally. *)
Inductive Exception :=
| TypeError (msg : string)
| Error (msg : string)
| ErrorWithCode (msg : string) (code : grpc_call_error).  (* nanErrorWithCode *)

(** ** Operations and tags *)

(** [ServerShutdownOp] has one field, the pointer to its server. *)
Record ServerShutdownOp := { server : nat }.

Record NewCallOp := {
  call : option grpc_call;            (* None is NULL *)
  details : grpc_call_details;
  request_metadata : grpc_metadata_array
}.

(** The constructor [NewCallOp::NewCallOp()]. *)
Definition NewCallOp_new : NewCallOp :=
  {| call := None;
     details := grpc_call_details_init;
     request_metadata := grpc_metadata_array_init |}.

(** An element of an [OpVec]: a pointer to one of the two subclasses. *)
Inductive AnyOp :=
| OpShutdown (op : ServerShutdownOp)
| OpNewCall (op : NewCallOp).

Definition OpVec := list AnyOp.

(** [struct tag], built as [tag(callback, ops, call, call_persist)]. *)
Record tag := {
  callback : Value;
  ops : OpVec;
  tag_call : option grpc_call;
  call_persist : Value
}.

(** ** Calls into the native library and the completion queue

    [GetCompletionQueue()] always names the one queue of the process, so the
    queue arguments are left out. *)
Inductive NativeCall :=
| grpc_server_create (a : option grpc_channel_args)
| grpc_server_register_completion_queue (s : grpc_server)
| grpc_server_add_insecure_http2_port (s : grpc_server) (addr : string)
| grpc_server_add_secure_http2_port (s : grpc_server) (addr : string)
    (creds : grpc_server_credentials)
| grpc_server_start (s : grpc_server)
| grpc_server_request_call (s : grpc_server) (t : tag)
| grpc_server_shutdown_and_notify (s : grpc_server) (t : tag)
| grpc_server_cancel_all_calls (s : grpc_server)
| grpc_server_destroy (s : grpc_server)
| completion_queue_next.

(** What the native library returns.  Each answer may depend on every call
    made so far, the current one included (last in the list). *)
Class NativeEngine := {
  GRPC_CALL_OK : grpc_call_error;
  created_server : list NativeCall -> grpc_server;
  bound_port : list NativeCall -> Z;
  request_call_error : list NativeCall -> grpc_call_error
}.

(** [ParseChannelArgs(value, &channel_args)] is declared in another header of
    the package.  [None] stands for the result [false]; [Some a] for [true]
    with [a] stored through the pointer ([a = None] is a NULL pointer). *)
Class ChannelArgsParser := {
  ParseChannelArgs : Value -> option (option grpc_channel_args)
}.

(** Helpers of the package that are declared in call.h, slice.h and
    timeval.h. *)
Class CallHelpers := {
  WrapStruct : grpc_call -> Value;
  CopyStringFromSlice : grpc_slice -> Value;
  TimespecToMilliseconds : gpr_timespec -> double;
  ParseMetadata : grpc_metadata_array -> Value
}.

(** ** The Server object and the world *)

Record Server := {
  wrapped_server : grpc_server;
  is_shutdown : bool;
  running_self_ref : option Value      (* a Persistent<Object>, None when empty *)
}.

Record World := {
  servers : gmap nat Server;           (* the Server wrapped by each host object *)
  native_log : list NativeCall;        (* calls made so far, oldest first *)
  next_object : nat                    (* next host object NewInstance allocates *)
}.

(** ** The monad of the exported methods

    A method runs on a world and ends in one of three ways: it returns
    normally, it leaves an exception pending, or it dereferences a host
    object that wraps nothing ([Fatal], undefined behaviour in C++). *)
Inductive Outcome (A : Type) :=
| Normal (a : A)
| Throw (e : Exception)
| Fatal.

Arguments Normal {A} a.
Arguments Throw {A} e.
Arguments Fatal {A}.

Definition M (A : Type) : Type := World -> Outcome A * World.

Definition ret {A} (a : A) : M A := fun w => (Normal a, w).

Definition bind {A B} (m : M A) (k : A -> M B) : M B :=
  fun w =>
    match m w with
    | (Normal a, w') => k a w'
    | (Throw e, w') => (Throw e, w')
    | (Fatal, w') => (Fatal, w')
    end.

Definition throw {A} (e : Exception) : M A := fun w => (Throw e, w).

Declare Scope method_scope.
Delimit Scope method_scope with method.
Notation "'let*' x := m 'in' k" := (bind m (fun x => k))
  (at level 10, x name, m at level 100, k at level 200) : method_scope.
Notation "m ;; k" := (bind m (fun _ => k))
  (at level 100, k at level 200, right associativity) : method_scope.
Local Open Scope method_scope.

Definition set_servers (h : gmap nat Server) (w : World) : World :=
  {| servers := h; native_log := native_log w; next_object := next_object w |}.

Definition log_call (c : NativeCall) (w : World) : World :=
  {| servers := servers w;
     native_log := native_log w ++ [c];
     next_object := next_object w |}.

(** A native call whose result is not used. *)
Definition native (c : NativeCall) : M unit :=
  fun w => (Normal tt, log_call c w).

(** Modelled from the spec: [CompletionQueueNext] is declared in
    completion_queue.h, outside this file.  The spec describes it as the nudge
    that prompts the dispatcher after a submission; the completion of the
    submitted operation, and with it the completion hook, is delivered by the
    dispatcher later.  A call is therefore recorded in the log and changes no
    [Server] object. *)
Definition CompletionQueueNext : M unit := native completion_queue_next.

(** A native call whose result is read off the engine. *)
Definition native_with {A} (answer : list NativeCall -> A) (c : NativeCall) : M A :=
  fun w => (Normal (answer (native_log w ++ [c])), log_call c w).

(** [Server::HasInstance(val)] and [ServerCredentials::HasInstance(val)]. *)
Definition HasInstance (val : Value) : bool :=
  match val with VServer _ => true | _ => false end.

Definition ServerCredentials_HasInstance (val : Value) : bool :=
  match val with VServerCredentials _ => true | _ => false end.

(** [ObjectWrap::Unwrap<Server>(val)]: the pointer to the wrapped object. *)
Definition Unwrap (val : Value) : M nat :=
  fun w =>
    match val with
    | VServer obj =>
        match servers w !! obj with
        | Some _ => (Normal obj, w)
        | None => (Fatal, w)
        end
    | _ => (Fatal, w)
    end.

(** Reading a field through a [Server *]. *)
Definition load (this : nat) : M Server :=
  fun w =>
    match servers w !! this with
    | Some s => (Normal s, w)
    | None => (Fatal, w)
    end.

(** [ObjectWrap::handle()]: the host object that wraps the server at [this]. *)
Definition handle (this : nat) : Value := VServer this.

(** ** Server *)

(** The constructor [Server::Server(grpc_server *server)]. *)
Definition Server_new (s : grpc_server) : Server :=
  {| wrapped_server := s; is_shutdown := false; running_self_ref := None |}.

(** [Server::FinishShutdown], on the fields of the object. *)
Definition FinishShutdown (s : Server) : Server :=
  {| wrapped_server := wrapped_server s;
     is_shutdown := true;
     running_self_ref := None |}.

(** The destructor [Server::~Server], run when the host reclaims the object. *)
Definition Server_delete (this : nat) : M unit :=
  fun w =>
    match servers w !! this with
    | Some s =>
        (Normal tt,
         set_servers (delete this (servers w))
           (log_call (grpc_server_destroy (wrapped_server s)) w))
    | None => (Fatal, w)
    end.

(** [server->FinishShutdown()] through a pointer. *)
Definition call_FinishShutdown (this : nat) (w : World) : World :=
  set_servers (alter FinishShutdown this (servers w)) w.

(** ** The Op interface and its two implementations *)

Class Op (T : Type) := {
  GetNodeValue : T -> Value;
  ParseOp : T -> Value -> bool;
  IsFinalOp : T -> bool;
  OnComplete : T -> bool -> World -> World;
  GetTypeString : T -> string
}.

Section Ops.
Context `{CallHelpers}.

Definition ServerShutdownOp_GetNodeValue (op : ServerShutdownOp) : Value :=
  handle (server op).

Definition ServerShutdownOp_OnComplete (op : ServerShutdownOp) (success : bool)
  (w : World) : World :=
  if success then call_FinishShutdown (server op) w else w.

#[global] Instance ServerShutdownOp_Op : Op ServerShutdownOp := {
  GetNodeValue := ServerShutdownOp_GetNodeValue;
  ParseOp := fun _ _ => true;
  IsFinalOp := fun _ => false;
  OnComplete := ServerShutdownOp_OnComplete;
  GetTypeString := fun _ => "try_shutdown"
}.

Definition NewCallOp_GetNodeValue (op : NewCallOp) : Value :=
  match call op with
  | None => VNull
  | Some c =>
      let obj := New_Object in
      let obj := Nan_Set obj (PString "call") (WrapStruct c) in
      let obj := Nan_Set obj (PString "method")
                   (CopyStringFromSlice (method (details op))) in
      let obj := Nan_Set obj (PString "host")
                   (CopyStringFromSlice (host (details op))) in
      let obj := Nan_Set obj (PString "deadline")
                   (VDate (TimespecToMilliseconds (deadline (details op)))) in
      let obj := Nan_Set obj (PString "metadata")
                   (ParseMetadata (request_metadata op)) in
      VObject obj
  end.

Definition NewCallOp_OnComplete (op : NewCallOp) (success : bool) (w : World)
  : World := w.

#[global] Instance NewCallOp_Op : Op NewCallOp := {
  GetNodeValue := NewCallOp_GetNodeValue;
  ParseOp := fun _ _ => true;
  IsFinalOp := fun _ => false;
  OnComplete := NewCallOp_OnComplete;
  GetTypeString := fun _ => "new_call"
}.

(** A call through an [Op *] goes to the subclass of the object. *)
#[global] Instance AnyOp_Op : Op AnyOp := {
  GetNodeValue := fun o =>
    match o with OpShutdown op => GetNodeValue op | OpNewCall op => GetNodeValue op end;
  ParseOp := fun o v =>
    match o with OpShutdown op => ParseOp op v | OpNewCall op => ParseOp op v end;
  IsFinalOp := fun o =>
    match o with OpShutdown op => IsFinalOp op | OpNewCall op => IsFinalOp op end;
  OnComplete := fun o success =>
    match o with
    | OpShutdown op => OnComplete op success
    | OpNewCall op => OnComplete op success
    end;
  GetTypeString := fun o =>
    match o with
    | OpShutdown op => GetTypeString op
    | OpNewCall op => GetTypeString op
    end
}.

End Ops.

(** ** The exported methods *)

Section Methods.
Context `{NativeEngine} `{ChannelArgsParser}.

(** [NAN_METHOD(ShutdownCallback)], the continuation of a forced shutdown. *)
Definition ShutdownCallback (info : FunctionCallbackInfo) : M Value :=
  if negb (IsNull (arg info 0)) then
    throw (Error "forceShutdown failed somehow")
  else ret VUndefined.

(** [Server::ShutdownServer]. *)
Definition ShutdownServer (this : nat) : M unit :=
  let* s := load this in
  if negb (is_shutdown s) then
    let shutdown_callback := VShutdownCb in
    let op := {| server := this |} in
    let ops := [OpShutdown op] in
    native (grpc_server_shutdown_and_notify (wrapped_server s)
              {| callback := shutdown_callback; ops := ops;
                 tag_call := None; call_persist := VNull |});;
    native (grpc_server_cancel_all_calls (wrapped_server s));;
    CompletionQueueNext
  else ret tt.

(** [ObjectWrap::Wrap(handle)]: the host object now wraps the new server. *)
Definition Wrap (s : Server) (this : Value) : M unit :=
  fun w =>
    match this with
    | VServer obj => (Normal tt, set_servers (<[obj := s]> (servers w)) w)
    | _ => (Fatal, w)
    end.

(** [Nan::NewInstance(constructor, argc, argv)] allocates the receiver of the
    constructor call it makes. *)
Definition new_receiver : M Value :=
  fun w =>
    (Normal (VServer (next_object w)),
     {| servers := servers w; native_log := native_log w;
        next_object := S (next_object w) |}).

(** The body of [Server::New] once it is a constructor call. *)
Definition New_construct (info : FunctionCallbackInfo) : M Value :=
  match ParseChannelArgs (arg info 0) with
  | None =>
      throw (TypeError
        "Server options must be an object with string keys and integer or string values")
  | Some channel_args =>
      let* wrapped := native_with created_server (grpc_server_create channel_args) in
      native (grpc_server_register_completion_queue wrapped);;
      let server := Server_new wrapped in
      Wrap server (This info);;
      ret (This info)
  end.

(** [NAN_METHOD(Server::New)]. *)
Definition New (info : FunctionCallbackInfo) : M Value :=
  if negb (IsConstructCall info) then
    let* receiver := new_receiver in
    New_construct {| IsConstructCall := true; This := receiver;
                     args := [arg info 0] |}
  else New_construct info.

(** [NAN_METHOD(Server::RequestCall)].  [info[0]] is cast to a function
    without a check. *)
Definition RequestCall (info : FunctionCallbackInfo) : M Value :=
  if negb (HasInstance (This info)) then
    throw (TypeError "requestCall can only be called on a Server")
  else
    let* this := Unwrap (This info) in
    let* s := load this in
    let op := NewCallOp_new in
    let ops := [OpNewCall op] in
    let* error := native_with request_call_error
                    (grpc_server_request_call (wrapped_server s)
                       {| callback := arg info 0; ops := ops;
                          tag_call := None; call_persist := VNull |}) in
    if negb (Z.eqb error GRPC_CALL_OK) then
      throw (ErrorWithCode "requestCall failed" error)
    else
      CompletionQueueNext;;
      ret VUndefined.

(** [*Utf8String(v)] for a string and
    [ServerCredentials::GetWrappedServerCredentials]. *)
Definition Utf8String (v : Value) : string :=
  match v with VString s => s | _ => "" end.

Definition GetWrappedServerCredentials (v : Value) : option grpc_server_credentials :=
  match v with VServerCredentials creds => creds | _ => None end.

(** [NAN_METHOD(Server::AddHttp2Port)]. *)
Definition AddHttp2Port (info : FunctionCallbackInfo) : M Value :=
  if negb (HasInstance (This info)) then
    throw (TypeError "addHttp2Port can only be called on a Server")
  else if negb (IsString (arg info 0)) then
    throw (TypeError "addHttp2Port's first argument must be a String")
  else if negb (ServerCredentials_HasInstance (arg info 1)) then
    throw (TypeError "addHttp2Port's second argument must be ServerCredentials")
  else
    let* this := Unwrap (This info) in
    let* s := load this in
    let creds := GetWrappedServerCredentials (arg info 1) in
    let* port :=
      match creds with
      | None =>
          native_with bound_port
            (grpc_server_add_insecure_http2_port (wrapped_server s)
               (Utf8String (arg info 0)))
      | Some c =>
          native_with bound_port
            (grpc_server_add_secure_http2_port (wrapped_server s)
               (Utf8String (arg info 0)) c)
      end in
    ret (VNumber port).

(** [server->running_self_ref.Reset(info.This())]. *)
Definition Reset_running_self_ref (this : nat) (v : Value) : M unit :=
  fun w =>
    (Normal tt,
     set_servers
       (alter (fun s => {| wrapped_server := wrapped_server s;
                           is_shutdown := is_shutdown s;
                           running_self_ref := Some v |}) this (servers w)) w).

(** [NAN_METHOD(Server::Start)]. *)
Definition Start (info : FunctionCallbackInfo) : M Value :=
  if negb (HasInstance (This info)) then
    throw (TypeError "start can only be called on a Server")
  else
    let* this := Unwrap (This info) in
    Reset_running_self_ref this (This info);;
    let* s := load this in
    native (grpc_server_start (wrapped_server s));;
    ret VUndefined.

(** [NAN_METHOD(Server::TryShutdown)]. *)
Definition TryShutdown (info : FunctionCallbackInfo) : M Value :=
  if negb (HasInstance (This info)) then
    throw (TypeError "tryShutdown can only be called on a Server")
  else if negb (IsFunction (arg info 0)) then
    throw (Error "tryShutdown's argument must be a callback")
  else
    let* this := Unwrap (This info) in
    let* s := load this in
    let op := {| server := this |} in
    let ops := [OpShutdown op] in
    native (grpc_server_shutdown_and_notify (wrapped_server s)
              {| callback := arg info 0; ops := ops;
                 tag_call := None; call_persist := VNull |});;
    CompletionQueueNext;;
    ret VUndefined.

(** [NAN_METHOD(Server::ForceShutdown)]. *)
Definition ForceShutdown (info : FunctionCallbackInfo) : M Value :=
  if negb (HasInstance (This info)) then
    throw (TypeError "forceShutdown can only be called on a Server")
  else
    let* this := Unwrap (This info) in
    ShutdownServer this;;
    ret VUndefined.

End Methods.

(** ** Fixtures *)

(** An engine that accepts every request, binds every address to port 50051
    and numbers the servers it creates by the length of the log. *)
Definition accepting_engine : NativeEngine :=
  {| GRPC_CALL_OK := 0%Z;
     created_server := fun log => length log;
     bound_port := fun _ => 50051%Z;
     request_call_error := fun _ => 0%Z |}.

(** An engine that refuses every request for a call with code 1. *)
Definition refusing_engine : NativeEngine :=
  {| GRPC_CALL_OK := 0%Z;
     created_server := fun log => length log;
     bound_port := fun _ => 0%Z;
     request_call_error := fun _ => 1%Z |}.

(** Modelled from the spec: [ParseChannelArgs] is defined outside this file.
    The spec takes a configuration to be a mapping of string keys to integer
    or string values and calls anything else malformed. *)
Fixpoint parse_entries (props : list (PropertyKey * Value)) : option grpc_channel_args :=
  match props with
  | [] => Some []
  | (PString k, VNumber i) :: rest =>
      option_map (cons (k, GRPC_ARG_INTEGER i)) (parse_entries rest)
  | (PString k, VString s) :: rest =>
      option_map (cons (k, GRPC_ARG_STRING s)) (parse_entries rest)
  | _ => None
  end.

(** Modelled from the spec: a configuration is accepted when it is an object
    all of whose entries have that shape. *)
Definition spec_parser : ChannelArgsParser :=
  {| ParseChannelArgs := fun v =>
       match v with
       | VObject props => option_map Some (parse_entries props)
       | _ => None
       end |}.

Definition empty_world : World :=
  {| servers := ∅; native_log := []; next_object := 0 |}.

Definition call_on (this : Value) (arguments : list Value) : FunctionCallbackInfo :=
  {| IsConstructCall := false; This := this; args := arguments |}.

(** The world after [Server({})]: one server, wrapped by host object 0. *)
Definition created_world : World :=
  snd (@New accepting_engine spec_parser (call_on VUndefined [VObject []]) empty_world).

(** ... and after [server.start()]. *)
Definition started_world : World :=
  snd (Start (call_on (VServer 0) []) created_world).

(** ... and after a shutdown of that server has completed with success. *)
Definition finished_world : World :=
  call_FinishShutdown 0 started_world.

(** ** Vocabulary of the properties *)

(** The exception [New] leaves pending on a malformed configuration; the host
    sees a TypeError with this message. *)
Definition ConfigurationError : Exception :=
  TypeError
    "Server options must be an object with string keys and integer or string values".

(** Calls that hand work to the native library, and the nudge of the
    completion queue. *)
Definition is_submission (c : NativeCall) : bool :=
  match c with
  | grpc_server_request_call _ _
  | grpc_server_shutdown_and_notify _ _
  | grpc_server_cancel_all_calls _ => true
  | _ => false
  end.

Definition is_nudge (c : NativeCall) : bool :=
  match c with completion_queue_next => true | _ => false end.

Definition is_shutdown_notify (c : NativeCall) : bool :=
  match c with grpc_server_shutdown_and_notify _ _ => true | _ => false end.

Definition is_cancel_all (c : NativeCall) : bool :=
  match c with grpc_server_cancel_all_calls _ => true | _ => false end.

(** The tag of a shutdown request: one [ServerShutdownOp] for the server at
    [this], to be continued by [cb]. *)
Definition shutdown_tag (cb : Value) (this : nat) : tag :=
  {| callback := cb; ops := [OpShutdown {| server := this |}];
     tag_call := None; call_persist := VNull |}.

(** The tag of a request for a call: one fresh [NewCallOp]. *)
Definition new_call_tag (cb : Value) : tag :=
  {| callback := cb; ops := [OpNewCall NewCallOp_new];
     tag_call := None; call_persist := VNull |}.

(** The world with [tr] added to the log and nothing else changed. *)
Definition logged (tr : list NativeCall) (w : World) : World :=
  {| servers := servers w; native_log := native_log w ++ tr;
     next_object := next_object w |}.

(** An entry of a configuration object that has the shape the spec asks for:
    a string key with an integer or a string value. *)
Definition well_shaped (entry : PropertyKey * Value) : bool :=
  match entry with
  | (PString _, VNumber _) | (PString _, VString _) => true
  | _ => false
  end.

(** The calls of one run are submissions, at least one, followed by exactly
    one nudge, which is the last call. *)
Definition nudged_once (tr : list NativeCall) : Prop :=
  exists subs, subs <> [] /\ forallb is_submission subs = true /\
               tr = subs ++ [completion_queue_next].

(** The three methods that hand work to the native library. *)
Inductive Submitter := by_RequestCall | by_TryShutdown | by_ForceShutdown.

Definition run_submitter `{NativeEngine} (m : Submitter)
  : FunctionCallbackInfo -> M Value :=
  match m with
  | by_RequestCall => RequestCall
  | by_TryShutdown => TryShutdown
  | by_ForceShutdown => ForceShutdown
  end.

(** Modelled from the spec: stand-ins for the helpers of call.h, slice.h and
    timeval.h, for the places where some instance is needed.  The call is
    handed on as an opaque handle and the slices as strings; the conversions
    of the deadline and of the metadata are not modelled (a zero pattern, an
    empty object), and no property below depends on them. *)
Definition plain_helpers : CallHelpers :=
  {| WrapStruct := VCall;
     CopyStringFromSlice := VString;
     TimespecToMilliseconds := fun _ => {| double_bits := 0 |};
     ParseMetadata := fun _ => VObject [] |}.

(** ** The methods of the prototype and the steps of a server's life *)

(** The five methods [Server::Init] puts on the prototype. *)
Inductive Method :=
| m_requestCall | m_addHttp2Port | m_start | m_tryShutdown | m_forceShutdown.

(** The name each one is registered under ([Nan::SetPrototypeMethod]). *)
Definition method_name (m : Method) : string :=
  match m with
  | m_requestCall => "requestCall"
  | m_addHttp2Port => "addHttp2Port"
  | m_start => "start"
  | m_tryShutdown => "tryShutdown"
  | m_forceShutdown => "forceShutdown"
  end.

(** The body of each method.  The registration also installs a check of the
    receiver that runs before the body; it belongs to the host bindings, not
    to this file, and is not modelled: nothing below says which exception a
    receiver that is no Server gets. *)
Definition run_method `{NativeEngine} (m : Method) : FunctionCallbackInfo -> M Value :=
  match m with
  | m_requestCall => RequestCall
  | m_addHttp2Port => AddHttp2Port
  | m_start => Start
  | m_tryShutdown => TryShutdown
  | m_forceShutdown => ForceShutdown
  end.

(** What happens to a server after its construction: the host calls a method
    of the prototype, or an operation completes and its hook runs. *)
Inductive Step :=
| Invoke (m : Method) (info : FunctionCallbackInfo)
| Complete (op : AnyOp) (success : bool).

Definition run_step `{NativeEngine} `{CallHelpers} (st : Step) (w : World) : World :=
  match st with
  | Invoke m info => snd (run_method m info w)
  | Complete op success => OnComplete op success w
  end.

Definition run_steps `{NativeEngine} `{CallHelpers} (steps : list Step) (w : World)
  : World :=
  fold_left (fun w st => run_step st w) steps w.

(** The step is the successful completion of a shutdown of the server at [p]. *)
Definition completes_shutdown_of (p : nat) (st : Step) : bool :=
  match st with
  | Complete (OpShutdown op) true => Nat.eqb (server op) p
  | _ => false
  end.

(** What [running_self_ref.Reset(v)] does to the fields of a server. *)
Definition hold_self_ref (v : Value) (s : Server) : Server :=
  {| wrapped_server := wrapped_server s;
     is_shutdown := is_shutdown s;
     running_self_ref := Some v |}.

(** The native server a call is made on, and the tag it hands over. *)
Definition native_target (c : NativeCall) : option grpc_server :=
  match c with
  | grpc_server_register_completion_queue s
  | grpc_server_add_insecure_http2_port s _
  | grpc_server_add_secure_http2_port s _ _
  | grpc_server_start s
  | grpc_server_request_call s _
  | grpc_server_shutdown_and_notify s _
  | grpc_server_cancel_all_calls s
  | grpc_server_destroy s => Some s
  | grpc_server_create _ | completion_queue_next => None
  end.

Definition tag_of (c : NativeCall) : option tag :=
  match c with
  | grpc_server_request_call _ t | grpc_server_shutdown_and_notify _ t => Some t
  | _ => None
  end.

Definition creates_or_destroys (c : NativeCall) : bool :=
  match c with
  | grpc_server_create _ | grpc_server_destroy _ => true
  | _ => false
  end.

(** A call that a method of the prototype may make when it is called with
    [info] on the server at [this], whose native server is [srv]. *)
Definition call_of_method (info : FunctionCallbackInfo) (srv : grpc_server)
  (this : nat) (c : NativeCall) : Prop :=
  match c with
  | grpc_server_add_insecure_http2_port s _
  | grpc_server_add_secure_http2_port s _ _
  | grpc_server_start s
  | grpc_server_cancel_all_calls s => s = srv
  | grpc_server_request_call s t => s = srv /\ t = new_call_tag (arg info 0)
  | grpc_server_shutdown_and_notify s t =>
      s = srv /\
      (t = shutdown_tag (arg info 0) this \/ t = shutdown_tag VShutdownCb this)
  | completion_queue_next => True
  | grpc_server_create _
  | grpc_server_register_completion_queue _
  | grpc_server_destroy _ => False
  end.

(** ** Checks on the fixtures *)

Example started_world_server :
  servers started_world !! 0 =
    Some {| wrapped_server := 1; is_shutdown := false;
            running_self_ref := Some (VServer 0) |}.
Proof. reflexivity. Qed.

Example started_world_log :
  native_log started_world =
    [grpc_server_create (Some []); grpc_server_register_completion_queue 1;
     grpc_server_start 1].
Proof. reflexivity. Qed.

Example finished_world_server :
  servers finished_world !! 0 =
    Some {| wrapped_server := 1; is_shutdown := true; running_self_ref := None |}.
Proof. reflexivity. Qed.

(** ** Running the methods *)

Lemma logged_nil w : logged [] w = w.
Proof. destruct w; unfold logged; simpl. by rewrite app_nil_r. Qed.

Lemma logged_logged tr1 tr2 w : logged tr2 (logged tr1 w) = logged (tr1 ++ tr2) w.
Proof. unfold logged; simpl. by rewrite app_assoc. Qed.

(** Unfolds the monad: what is left speaks of the log only. *)
Ltac run_monad :=
  unfold bind, CompletionQueueNext, native, native_with, ret, throw, log_call, logged;
  simpl;
  rewrite <- ?app_assoc; simpl.

Lemma ShutdownServer_run this s w :
  servers w !! this = Some s ->
  ShutdownServer this w =
    (Normal tt,
     if is_shutdown s then w
     else logged [grpc_server_shutdown_and_notify (wrapped_server s)
                    (shutdown_tag VShutdownCb this);
                  grpc_server_cancel_all_calls (wrapped_server s);
                  completion_queue_next] w).
Proof.
  intros Hs. unfold ShutdownServer, bind at 1, load. rewrite Hs.
  destruct (is_shutdown s); simpl; [reflexivity |].
  run_monad. reflexivity.
Qed.

Lemma ForceShutdown_run info this s w :
  This info = VServer this ->
  servers w !! this = Some s ->
  ForceShutdown info w =
    (Normal VUndefined,
     if is_shutdown s then w
     else logged [grpc_server_shutdown_and_notify (wrapped_server s)
                    (shutdown_tag VShutdownCb this);
                  grpc_server_cancel_all_calls (wrapped_server s);
                  completion_queue_next] w).
Proof.
  intros Hthis Hs. unfold ForceShutdown. rewrite Hthis. simpl.
  unfold bind at 1. unfold Unwrap. rewrite Hs.
  unfold bind. rewrite (ShutdownServer_run this s w Hs). reflexivity.
Qed.

Lemma TryShutdown_run info this s w :
  This info = VServer this ->
  servers w !! this = Some s ->
  IsFunction (arg info 0) = true ->
  TryShutdown info w =
    (Normal VUndefined,
     logged [grpc_server_shutdown_and_notify (wrapped_server s)
               (shutdown_tag (arg info 0) this);
             completion_queue_next] w).
Proof.
  intros Hthis Hs Hcb. unfold TryShutdown. rewrite Hthis, Hcb. simpl.
  unfold bind at 1, Unwrap. rewrite Hs.
  unfold bind at 1, load. rewrite Hs.
  run_monad. reflexivity.
Qed.

Lemma RequestCall_run `{NativeEngine} info this s w :
  This info = VServer this ->
  servers w !! this = Some s ->
  let c := grpc_server_request_call (wrapped_server s) (new_call_tag (arg info 0)) in
  let error := request_call_error (native_log w ++ [c]) in
  RequestCall info w =
    if Z.eqb error GRPC_CALL_OK then
      (Normal VUndefined, logged [c; completion_queue_next] w)
    else (Throw (ErrorWithCode "requestCall failed" error), logged [c] w).
Proof.
  intros Hthis Hs c error. unfold RequestCall. rewrite Hthis. simpl.
  unfold bind at 1, Unwrap. rewrite Hs.
  unfold bind at 1, load. rewrite Hs.
  unfold bind at 1, native_with. fold (new_call_tag (arg info 0)). fold c. fold error.
  destruct (Z.eqb error GRPC_CALL_OK); simpl; run_monad; reflexivity.
Qed.

(** ** tryShutdown *)

(** C1, counterexample: on the started server of [started_world], which is not
    shut down, [TryShutdown] hands over the shutdown request and nudges the
    queue, and the log holds no [grpc_server_cancel_all_calls] afterwards. *)
Lemma TryShutdown_sends_no_cancel_all :
  (is_shutdown <$> servers started_world !! 0) = Some false /\
  TryShutdown (call_on (VServer 0) [VFunction 5]) started_world =
    (Normal VUndefined,
     logged [grpc_server_shutdown_and_notify 1 (shutdown_tag (VFunction 5) 0);
             completion_queue_next] started_world) /\
  existsb is_cancel_all
    (native_log (snd (TryShutdown (call_on (VServer 0) [VFunction 5]) started_world)))
  = false.
Proof. repeat split; reflexivity. Qed.

(** C1, as amended: for every server handle not already shut down,
    [TryShutdown] called with a function submits one ShutdownNotify operation
    (a tag holding one [ServerShutdownOp] for this server and the function as
    continuation), submits no cancel-all request, then calls
    [CompletionQueueNext] once; it returns normally and changes nothing else. *)
Theorem TryShutdown_submits_notify_then_nudges info this s w :
  This info = VServer this ->
  servers w !! this = Some s ->
  is_shutdown s = false ->
  IsFunction (arg info 0) = true ->
  TryShutdown info w =
    (Normal VUndefined,
     logged [grpc_server_shutdown_and_notify (wrapped_server s)
               (shutdown_tag (arg info 0) this);
             completion_queue_next] w).
Proof. intros Hthis Hs _ Hcb. by apply TryShutdown_run. Qed.

Lemma TryShutdown_submits_notify_then_nudges_witness :
  servers started_world !! 0 =
    Some {| wrapped_server := 1; is_shutdown := false;
            running_self_ref := Some (VServer 0) |} /\
  TryShutdown (call_on (VServer 0) [VFunction 5]) started_world =
    (Normal VUndefined,
     logged [grpc_server_shutdown_and_notify 1 (shutdown_tag (VFunction 5) 0);
             completion_queue_next] started_world).
Proof.
  split; [reflexivity |].
  apply (TryShutdown_submits_notify_then_nudges
           (call_on (VServer 0) [VFunction 5]) 0
           {| wrapped_server := 1; is_shutdown := false;
              running_self_ref := Some (VServer 0) |} started_world);
    reflexivity.
Defined.

(** C2, counterexample: on the server of [finished_world], whose [is_shutdown]
    is set, [TryShutdown] still hands a shutdown request to the native library:
    the log grows by two calls. *)
Lemma TryShutdown_on_shut_down_server_submits :
  (is_shutdown <$> servers finished_world !! 0) = Some true /\
  native_log (snd (TryShutdown (call_on (VServer 0) [VFunction 5]) finished_world)) =
    native_log finished_world ++
    [grpc_server_shutdown_and_notify 1 (shutdown_tag (VFunction 5) 0);
     completion_queue_next].
Proof. split; reflexivity. Qed.

(** C2, as amended: on a handle that is already shut down, [TryShutdown] does
    what it does on any other handle.  It does not look at [is_shutdown]: it
    submits a ShutdownNotify operation whose tag carries the supplied
    continuation, calls [CompletionQueueNext] once, and leaves the handle as
    it was.  The continuation is not called by [TryShutdown]; it is kept in
    the tag for the completion of the request. *)
Theorem TryShutdown_ignores_is_shutdown info this s w :
  This info = VServer this ->
  servers w !! this = Some s ->
  is_shutdown s = true ->
  IsFunction (arg info 0) = true ->
  TryShutdown info w =
    (Normal VUndefined,
     logged [grpc_server_shutdown_and_notify (wrapped_server s)
               (shutdown_tag (arg info 0) this);
             completion_queue_next] w)
  /\ callback (shutdown_tag (arg info 0) this) = arg info 0
  /\ servers (snd (TryShutdown info w)) = servers w.
Proof.
  intros Hthis Hs _ Hcb.
  rewrite (TryShutdown_run info this s w Hthis Hs Hcb). by repeat split.
Qed.

Lemma TryShutdown_ignores_is_shutdown_witness :
  servers finished_world !! 0 =
    Some {| wrapped_server := 1; is_shutdown := true; running_self_ref := None |} /\
  TryShutdown (call_on (VServer 0) [VFunction 5]) finished_world =
    (Normal VUndefined,
     logged [grpc_server_shutdown_and_notify 1 (shutdown_tag (VFunction 5) 0);
             completion_queue_next] finished_world).
Proof.
  split; [reflexivity |].
  apply (TryShutdown_ignores_is_shutdown
           (call_on (VServer 0) [VFunction 5]) 0
           {| wrapped_server := 1; is_shutdown := true; running_self_ref := None |}
           finished_world); reflexivity.
Defined.

(** ** forceShutdown and the completion of a shutdown *)

Lemma FinishShutdown_idempotent s : FinishShutdown (FinishShutdown s) = FinishShutdown s.
Proof. reflexivity. Qed.

Lemma call_FinishShutdown_idempotent this w :
  call_FinishShutdown this (call_FinishShutdown this w) = call_FinishShutdown this w.
Proof.
  unfold call_FinishShutdown, set_servers; simpl. f_equal.
  apply map_eq; intros p. destruct (decide (this = p)) as [<- | Hne].
  - rewrite !lookup_alter_eq. destruct (servers w !! this); reflexivity.
  - by rewrite !lookup_alter_ne.
Qed.

Lemma call_FinishShutdown_lookup this s w :
  servers w !! this = Some s ->
  servers (call_FinishShutdown this w) !! this = Some (FinishShutdown s).
Proof.
  intros Hs. unfold call_FinishShutdown; simpl.
  by rewrite lookup_alter_eq, Hs.
Qed.

Lemma call_FinishShutdown_other this p w :
  p <> this -> servers (call_FinishShutdown this w) !! p = servers w !! p.
Proof.
  intros Hp. unfold call_FinishShutdown; simpl.
  by rewrite lookup_alter_ne.
Qed.

(** C3, counterexample: two calls of [ForceShutdown] in a row on the started
    server of [started_world] hand the shutdown-notify/cancel-all pair to the
    native library twice. *)
Lemma ForceShutdown_twice_submits_twice :
  let info := call_on (VServer 0) [] in
  let w2 := snd (ForceShutdown info (snd (ForceShutdown info started_world))) in
  native_log w2 =
    native_log started_world ++
    [grpc_server_shutdown_and_notify 1 (shutdown_tag VShutdownCb 0);
     grpc_server_cancel_all_calls 1; completion_queue_next;
     grpc_server_shutdown_and_notify 1 (shutdown_tag VShutdownCb 0);
     grpc_server_cancel_all_calls 1; completion_queue_next] /\
  length (filter (fun c => is_shutdown_notify c = true) (native_log w2)) = 2 /\
  length (filter (fun c => is_cancel_all c = true) (native_log w2)) = 2.
Proof. repeat split; reflexivity. Qed.

(** C3, as amended: [ForceShutdown] is guarded by the [is_shutdown] flag.
    Called on a handle that is already shut down it submits nothing and
    changes nothing.  The flag is set by [FinishShutdown] only, that is by the
    successful completion of a ShutdownNotify operation, so a call on a handle
    that is not shut down submits the shutdown-notify/cancel-all pair and
    leaves the flag and the self-reference as they were; a second call made
    before a completion submits the pair again.  Once a completion has run
    [FinishShutdown], a further call submits nothing, and running
    [FinishShutdown] again changes nothing: the self-reference is released
    once. *)
Theorem ForceShutdown_guarded_by_is_shutdown info this s w :
  This info = VServer this ->
  servers w !! this = Some s ->
  let pair := [grpc_server_shutdown_and_notify (wrapped_server s)
                 (shutdown_tag VShutdownCb this);
               grpc_server_cancel_all_calls (wrapped_server s);
               completion_queue_next] in
  (is_shutdown s = true -> ForceShutdown info w = (Normal VUndefined, w)) /\
  (is_shutdown s = false ->
     ForceShutdown info w = (Normal VUndefined, logged pair w) /\
     ForceShutdown info (logged pair w) = (Normal VUndefined, logged (pair ++ pair) w)) /\
  ForceShutdown info (call_FinishShutdown this w) =
    (Normal VUndefined, call_FinishShutdown this w) /\
  call_FinishShutdown this (call_FinishShutdown this w) = call_FinishShutdown this w.
Proof.
  intros Hthis Hs pair. split; [| split; [| split]].
  - intros Hflag. rewrite (ForceShutdown_run info this s w Hthis Hs).
    by rewrite Hflag.
  - intros Hflag. split.
    + rewrite (ForceShutdown_run info this s w Hthis Hs). by rewrite Hflag.
    + rewrite (ForceShutdown_run info this s (logged pair w) Hthis Hs).
      rewrite Hflag. by rewrite logged_logged.
  - rewrite (ForceShutdown_run info this (FinishShutdown s) _ Hthis
               (call_FinishShutdown_lookup this s w Hs)).
    reflexivity.
  - apply call_FinishShutdown_idempotent.
Qed.

Lemma ForceShutdown_guarded_by_is_shutdown_witness :
  servers finished_world !! 0 =
    Some {| wrapped_server := 1; is_shutdown := true; running_self_ref := None |} /\
  ForceShutdown (call_on (VServer 0) []) finished_world =
    (Normal VUndefined, finished_world).
Proof.
  split; [reflexivity |].
  apply (ForceShutdown_guarded_by_is_shutdown
           (call_on (VServer 0) []) 0
           {| wrapped_server := 1; is_shutdown := true; running_self_ref := None |}
           finished_world); reflexivity.
Defined.

(** C4: when a ShutdownNotify operation completes with success, its hook
    sets [is_shutdown] on the server it points to and empties that server's
    self-reference, and touches nothing else; when it completes without
    success, the world is left as it was. *)
Theorem ServerShutdownOp_OnComplete_effect (op : ServerShutdownOp) s w :
  servers w !! server op = Some s ->
  servers (OnComplete op true w) !! server op =
    Some {| wrapped_server := wrapped_server s; is_shutdown := true;
            running_self_ref := None |} /\
  (forall p, p <> server op -> servers (OnComplete op true w) !! p = servers w !! p) /\
  native_log (OnComplete op true w) = native_log w /\
  next_object (OnComplete op true w) = next_object w /\
  OnComplete op false w = w.
Proof.
  intros Hs.
  change (OnComplete op true w) with (call_FinishShutdown (server op) w).
  change (OnComplete op false w) with w.
  repeat split.
  - by rewrite (call_FinishShutdown_lookup _ s w Hs).
  - intros p Hp. by apply call_FinishShutdown_other.
Qed.

Lemma ServerShutdownOp_OnComplete_effect_witness :
  servers started_world !! 0 =
    Some {| wrapped_server := 1; is_shutdown := false;
            running_self_ref := Some (VServer 0) |} /\
  servers (OnComplete {| server := 0 |} true started_world) !! 0 =
    Some {| wrapped_server := 1; is_shutdown := true; running_self_ref := None |} /\
  OnComplete {| server := 0 |} false started_world = started_world.
Proof.
  split; [reflexivity |].
  pose proof (ServerShutdownOp_OnComplete_effect {| server := 0 |}
                {| wrapped_server := 1; is_shutdown := false;
                   running_self_ref := Some (VServer 0) |}
                started_world eq_refl) as (Hset & _ & _ & _ & Hkeep).
  split; [exact Hset | exact Hkeep].
Defined.

(** ** Result values and completion hooks of the operations *)

(** C5: the result value of a [NewCallOp] is null when its call pointer is
    NULL, and otherwise an object with the five properties call, method, host,
    deadline and metadata, in this order and no others.  [GetNodeValue] is a
    total function to host values: no path of it throws. *)
Theorem NewCallOp_GetNodeValue_shape `{CallHelpers} (op : NewCallOp) :
  match call op with
  | None => GetNodeValue op = VNull
  | Some c =>
      GetNodeValue op =
        VObject
          [(PString "call", WrapStruct c);
           (PString "method", CopyStringFromSlice (method (details op)));
           (PString "host", CopyStringFromSlice (host (details op)));
           (PString "deadline", VDate (TimespecToMilliseconds (deadline (details op))));
           (PString "metadata", ParseMetadata (request_metadata op))] /\
      (exists props,
         GetNodeValue op = VObject props /\
         map fst props =
           [PString "call"; PString "method"; PString "host";
            PString "deadline"; PString "metadata"])
  end.
Proof.
  destruct op as [[c |] d md]; simpl; [| reflexivity].
  split; [reflexivity |]. eexists. split; reflexivity.
Qed.

(** C6, counterexample: completing the [ServerShutdownOp] of server 0 does
    produce a host-visible result value: the Server object itself, which is
    neither null nor undefined. *)
Lemma ServerShutdownOp_result_is_the_server_object :
  GetNodeValue {| server := 0 |} = VServer 0 /\
  GetNodeValue {| server := 0 |} <> VNull /\
  GetNodeValue {| server := 0 |} <> VUndefined /\
  HasInstance (GetNodeValue {| server := 0 |}) = true.
Proof. repeat split; discriminate. Qed.

(** C6, as amended: a [ServerShutdownOp] holds nothing but the pointer to its
    server, and it does have a host-visible result value: the Server object
    that wraps that server, whatever the success flag.  Its completion with
    success sets [is_shutdown] and empties the self-reference of that server
    and changes nothing else; its completion without success changes
    nothing. *)
Theorem ServerShutdownOp_result_and_completion (op : ServerShutdownOp) s w :
  servers w !! server op = Some s ->
  op = {| server := server op |} /\
  GetNodeValue op = VServer (server op) /\
  servers (OnComplete op true w) !! server op =
    Some {| wrapped_server := wrapped_server s; is_shutdown := true;
            running_self_ref := None |} /\
  (forall p, p <> server op ->
     servers (OnComplete op true w) !! p = servers w !! p) /\
  native_log (OnComplete op true w) = native_log w /\
  next_object (OnComplete op true w) = next_object w /\
  OnComplete op false w = w.
Proof.
  intros Hs. destruct op as [p]. simpl in Hs.
  change (OnComplete {| server := p |} true w) with (call_FinishShutdown p w).
  change (OnComplete {| server := p |} false w) with w.
  split; [reflexivity |]. split; [reflexivity |]. split.
  { exact (call_FinishShutdown_lookup p s w Hs). }
  split; [| by repeat split].
  intros q Hq. by apply call_FinishShutdown_other.
Qed.

Lemma ServerShutdownOp_result_and_completion_witness :
  servers started_world !! 0 =
    Some {| wrapped_server := 1; is_shutdown := false;
            running_self_ref := Some (VServer 0) |} /\
  GetNodeValue {| server := 0 |} = VServer 0 /\
  servers (OnComplete {| server := 0 |} true started_world) !! 0 =
    Some {| wrapped_server := 1; is_shutdown := true; running_self_ref := None |}.
Proof.
  split; [reflexivity |].
  pose proof (ServerShutdownOp_result_and_completion {| server := 0 |}
                {| wrapped_server := 1; is_shutdown := false;
                   running_self_ref := Some (VServer 0) |}
                started_world eq_refl) as (_ & Hvalue & Hdone & _).
  split; [exact Hvalue | exact Hdone].
Defined.

(** C10: the completion hook of a [NewCallOp] changes nothing, whatever the
    success flag: every server keeps its [is_shutdown] flag, its
    self-reference and its native pointer, and the log is as it was.  The same
    holds when the hook is reached through an [Op] pointer. *)
Theorem NewCallOp_OnComplete_changes_nothing `{CallHelpers}
  (op : NewCallOp) (success : bool) (w : World) :
  OnComplete op success w = w /\
  OnComplete (OpNewCall op) success w = w /\
  (forall p, servers (OnComplete op success w) !! p = servers w !! p).
Proof. repeat split. Qed.

(** ** Construction *)

Lemma parse_entries_malformed props :
  forallb well_shaped props = false -> parse_entries props = None.
Proof.
  induction props as [| [k v] rest IH]; simpl; [discriminate |].
  intros Hbad.
  destruct k as [key | sym]; [| reflexivity].
  destruct v; try reflexivity; simpl in Hbad; by rewrite (IH Hbad).
Qed.

Lemma New_construct_rejects `{NativeEngine} `{ChannelArgsParser} info w :
  ParseChannelArgs (arg info 0) = None ->
  New_construct info w = (Throw ConfigurationError, w).
Proof. intros Hbad. unfold New_construct. by rewrite Hbad. Qed.

(** C7: when the configuration is malformed, that is when [ParseChannelArgs]
    answers false on it, [New] leaves the configuration error pending, whether
    or not it was entered as a constructor call; no native call is made (so
    no [grpc_server_create]) and no [Server] object comes into being. *)
Theorem New_rejects_malformed_configuration `{NativeEngine} `{ChannelArgsParser}
  info w :
  ParseChannelArgs (arg info 0) = None ->
  fst (New info w) = Throw ConfigurationError /\
  native_log (snd (New info w)) = native_log w /\
  servers (snd (New info w)) = servers w.
Proof.
  intros Hbad. unfold New.
  destruct (IsConstructCall info); simpl.
  - by rewrite (New_construct_rejects info w Hbad).
  - unfold bind, new_receiver.
    rewrite New_construct_rejects; [by repeat split |]. exact Hbad.
Qed.

Lemma New_rejects_malformed_configuration_witness :
  let info :=
    call_on VUndefined [VObject [(PString "grpc.max_concurrent_streams", VNull)]] in
  @ParseChannelArgs spec_parser (arg info 0) = None /\
  fst (@New accepting_engine spec_parser info empty_world) = Throw ConfigurationError /\
  native_log (snd (@New accepting_engine spec_parser info empty_world)) = [].
Proof.
  split; [reflexivity |].
  pose proof (@New_rejects_malformed_configuration accepting_engine spec_parser
                (call_on VUndefined
                   [VObject [(PString "grpc.max_concurrent_streams", VNull)]])
                empty_world eq_refl) as (Hthrow & Hlog & _).
  split; [exact Hthrow | exact Hlog].
Defined.

(** ** addHttp2Port *)

(** C8, counterexample: with the credentials argument absent (or undefined,
    or null) [AddHttp2Port] binds nothing: it leaves a TypeError pending and
    makes no native call. *)
Lemma AddHttp2Port_without_credentials_throws :
  @AddHttp2Port accepting_engine (call_on (VServer 0) [VString "0.0.0.0:0"])
    created_world =
    (Throw (TypeError "addHttp2Port's second argument must be ServerCredentials"),
     created_world) /\
  @AddHttp2Port accepting_engine
    (call_on (VServer 0) [VString "0.0.0.0:0"; VUndefined]) created_world =
    (Throw (TypeError "addHttp2Port's second argument must be ServerCredentials"),
     created_world) /\
  @AddHttp2Port accepting_engine
    (call_on (VServer 0) [VString "0.0.0.0:0"; VNull]) created_world =
    (Throw (TypeError "addHttp2Port's second argument must be ServerCredentials"),
     created_world).
Proof. repeat split. Qed.

(** C8, as amended: for a call of [AddHttp2Port] on a server with a string
    address, the second argument must be a ServerCredentials object.  If that
    object wraps no native credentials the address is bound in plaintext mode,
    otherwise in secured mode with the wrapped credentials; the number the
    native library returns (the port, or its failure value) is returned as
    the result, and no [Server] object changes.  If the second argument is
    anything else, an absent one included, a TypeError is left pending and
    nothing is bound. *)
Theorem AddHttp2Port_binds_by_wrapped_credentials `{NativeEngine}
  info this s addr w :
  This info = VServer this ->
  servers w !! this = Some s ->
  arg info 0 = VString addr ->
  match arg info 1 with
  | VServerCredentials creds =>
      let bind_call :=
        match creds with
        | None => grpc_server_add_insecure_http2_port (wrapped_server s) addr
        | Some c => grpc_server_add_secure_http2_port (wrapped_server s) addr c
        end in
      AddHttp2Port info w =
        (Normal (VNumber (bound_port (native_log w ++ [bind_call]))),
         logged [bind_call] w)
  | _ =>
      AddHttp2Port info w =
        (Throw (TypeError "addHttp2Port's second argument must be ServerCredentials"),
         w)
  end.
Proof.
  intros Hthis Hs Haddr. unfold AddHttp2Port. rewrite Hthis, Haddr. simpl.
  destruct (arg info 1) as [| | | | | | | | | creds | |]; simpl; try reflexivity.
  unfold bind at 1, Unwrap. rewrite Hs.
  unfold bind at 1, load. rewrite Hs.
  destruct creds as [c |]; reflexivity.
Qed.

Lemma AddHttp2Port_binds_by_wrapped_credentials_witness :
  servers created_world !! 0 =
    Some {| wrapped_server := 1; is_shutdown := false; running_self_ref := None |} /\
  @AddHttp2Port accepting_engine
    (call_on (VServer 0) [VString "0.0.0.0:0"; VServerCredentials None])
    created_world =
    (Normal (VNumber 50051),
     logged [grpc_server_add_insecure_http2_port 1 "0.0.0.0:0"] created_world).
Proof.
  split; [reflexivity |].
  exact (@AddHttp2Port_binds_by_wrapped_credentials accepting_engine
           (call_on (VServer 0) [VString "0.0.0.0:0"; VServerCredentials None])
           0 {| wrapped_server := 1; is_shutdown := false; running_self_ref := None |}
           "0.0.0.0:0" created_world eq_refl eq_refl eq_refl).
Defined.

Lemma spec_parser_rejects_malformed props :
  forallb well_shaped props = false ->
  @ParseChannelArgs spec_parser (VObject props) = None.
Proof. intros Hbad. simpl. by rewrite (parse_entries_malformed props Hbad). Qed.

(** ** The nudge after a submission *)

Lemma nudged_once_count tr :
  nudged_once tr ->
  length (filter (fun c => is_nudge c = true) tr) = 1 /\
  last tr = Some completion_queue_next.
Proof.
  intros (subs & _ & Hsubs & ->). split; [| by rewrite last_snoc].
  rewrite filter_app, length_app. simpl.
  assert (filter (fun c => is_nudge c = true) subs = []) as ->; [| reflexivity].
  induction subs as [| c subs IH]; [reflexivity |].
  simpl in Hsubs. apply andb_prop in Hsubs as [Hc Hrest].
  rewrite filter_cons. destruct c; simpl in *; try discriminate; by apply IH.
Qed.

Example RequestCall_accepted :
  @RequestCall accepting_engine (call_on (VServer 0) [VFunction 5]) started_world =
    (Normal VUndefined,
     logged [grpc_server_request_call 1 (new_call_tag (VFunction 5));
             completion_queue_next] started_world).
Proof. reflexivity. Qed.

Example ForceShutdown_started :
  ForceShutdown (call_on (VServer 0) []) started_world =
    (Normal VUndefined,
     logged [grpc_server_shutdown_and_notify 1 (shutdown_tag VShutdownCb 0);
             grpc_server_cancel_all_calls 1; completion_queue_next] started_world).
Proof. reflexivity. Qed.

(** C9, counterexample: a request for a call that the native library refuses
    is a submission after which [RequestCall] makes no nudge: it throws, and
    the one call it has made is the request. *)
Lemma RequestCall_refused_makes_no_nudge :
  @RequestCall refusing_engine (call_on (VServer 0) [VFunction 5]) started_world =
    (Throw (ErrorWithCode "requestCall failed" 1%Z),
     logged [grpc_server_request_call 1 (new_call_tag (VFunction 5))] started_world) /\
  is_submission (grpc_server_request_call 1 (new_call_tag (VFunction 5))) = true /\
  filter (fun c => is_nudge c = true)
    [grpc_server_request_call 1 (new_call_tag (VFunction 5))] = [].
Proof. repeat split. Qed.

(** C9, as amended: on a server, each of [RequestCall], [TryShutdown] and
    [ForceShutdown] that gets its work accepted makes exactly its submissions
    followed by one [CompletionQueueNext], which is its last call: the request
    and the nudge; the shutdown request and the nudge; the shutdown request,
    the cancel-all request and the nudge.  The other runs make no nudge: a
    request the native library refuses stays the only call and
    [RequestCall] throws; [TryShutdown] without a function throws and
    [ForceShutdown] on a server already shut down returns, both without any
    call. *)
Theorem submission_is_followed_by_one_nudge `{NativeEngine}
  (m : Submitter) info this s w :
  This info = VServer this ->
  servers w !! this = Some s ->
  let request :=
    grpc_server_request_call (wrapped_server s) (new_call_tag (arg info 0)) in
  let code := request_call_error (native_log w ++ [request]) in
  let notify cb :=
    grpc_server_shutdown_and_notify (wrapped_server s) (shutdown_tag cb this) in
  let cancel := grpc_server_cancel_all_calls (wrapped_server s) in
  match m with
  | by_RequestCall =>
      if Z.eqb code GRPC_CALL_OK then
        RequestCall info w =
          (Normal VUndefined, logged [request; completion_queue_next] w) /\
        nudged_once [request; completion_queue_next]
      else
        RequestCall info w =
          (Throw (ErrorWithCode "requestCall failed" code), logged [request] w)
  | by_TryShutdown =>
      if IsFunction (arg info 0) then
        TryShutdown info w =
          (Normal VUndefined,
           logged [notify (arg info 0); completion_queue_next] w) /\
        nudged_once [notify (arg info 0); completion_queue_next]
      else
        TryShutdown info w =
          (Throw (Error "tryShutdown's argument must be a callback"), w)
  | by_ForceShutdown =>
      if is_shutdown s then ForceShutdown info w = (Normal VUndefined, w)
      else
        ForceShutdown info w =
          (Normal VUndefined,
           logged [notify VShutdownCb; cancel; completion_queue_next] w) /\
        nudged_once [notify VShutdownCb; cancel; completion_queue_next]
  end.
Proof.
  intros Hthis Hs request code notify cancel. destruct m.
  - pose proof (RequestCall_run info this s w Hthis Hs) as Hrun.
    simpl in Hrun. fold request in Hrun. fold code in Hrun. rewrite Hrun.
    destruct (Z.eqb code GRPC_CALL_OK); [| reflexivity].
    split; [reflexivity |]. exists [request]. by repeat split.
  - destruct (IsFunction (arg info 0)) eqn:Hcb.
    + rewrite (TryShutdown_run info this s w Hthis Hs Hcb).
      split; [reflexivity |]. exists [notify (arg info 0)]. by repeat split.
    + unfold TryShutdown. by rewrite Hthis, Hcb.
  - rewrite (ForceShutdown_run info this s w Hthis Hs).
    destruct (is_shutdown s); [reflexivity |].
    split; [reflexivity |]. exists [notify VShutdownCb; cancel]. by repeat split.
Qed.

Lemma submission_is_followed_by_one_nudge_witness :
  servers started_world !! 0 =
    Some {| wrapped_server := 1; is_shutdown := false;
            running_self_ref := Some (VServer 0) |} /\
  ForceShutdown (call_on (VServer 0) []) started_world =
    (Normal VUndefined,
     logged [grpc_server_shutdown_and_notify 1 (shutdown_tag VShutdownCb 0);
             grpc_server_cancel_all_calls 1; completion_queue_next] started_world) /\
  @RequestCall refusing_engine (call_on (VServer 0) [VFunction 5]) started_world =
    (Throw (ErrorWithCode "requestCall failed" 1%Z),
     logged [grpc_server_request_call 1 (new_call_tag (VFunction 5))] started_world).
Proof.
  split; [reflexivity |]. split.
  - exact (proj1 (@submission_is_followed_by_one_nudge accepting_engine
                    by_ForceShutdown (call_on (VServer 0) []) 0
                    {| wrapped_server := 1; is_shutdown := false;
                       running_self_ref := Some (VServer 0) |}
                    started_world eq_refl eq_refl)).
  - exact (@submission_is_followed_by_one_nudge refusing_engine
             by_RequestCall (call_on (VServer 0) [VFunction 5]) 0
             {| wrapped_server := 1; is_shutdown := false;
                running_self_ref := Some (VServer 0) |}
             started_world eq_refl eq_refl).
Defined.

(** ** Every method of the prototype, run on any input *)

Lemma AddHttp2Port_run `{NativeEngine} info this s w :
  This info = VServer this ->
  servers w !! this = Some s ->
  AddHttp2Port info w =
    match arg info 0, arg info 1 with
    | VString addr, VServerCredentials creds =>
        let bind_call :=
          match creds with
          | None => grpc_server_add_insecure_http2_port (wrapped_server s) addr
          | Some c => grpc_server_add_secure_http2_port (wrapped_server s) addr c
          end in
        (Normal (VNumber (bound_port (native_log w ++ [bind_call]))),
         logged [bind_call] w)
    | VString _, _ =>
        (Throw (TypeError "addHttp2Port's second argument must be ServerCredentials"),
         w)
    | _, _ =>
        (Throw (TypeError "addHttp2Port's first argument must be a String"), w)
    end.
Proof.
  intros Hthis Hs. unfold AddHttp2Port. rewrite Hthis. simpl.
  destruct (arg info 0) as [| | | addr | | | | | | | |]; try reflexivity.
  simpl.
  destruct (arg info 1) as [| | | | | | | | | creds | |]; try reflexivity.
  simpl. unfold bind at 1, Unwrap. rewrite Hs.
  unfold bind at 1, load. rewrite Hs.
  destruct creds as [c |]; reflexivity.
Qed.

Lemma Start_run info this s w :
  This info = VServer this ->
  servers w !! this = Some s ->
  Start info w =
    (Normal VUndefined,
     {| servers := <[this := hold_self_ref (VServer this) s]> (servers w);
        native_log := native_log w ++ [grpc_server_start (wrapped_server s)];
        next_object := next_object w |}).
Proof.
  intros Hthis Hs. unfold Start. rewrite Hthis. simpl.
  unfold bind at 1, Unwrap. rewrite Hs.
  unfold bind at 1, Reset_running_self_ref.
  unfold bind at 1, load. simpl. rewrite lookup_alter_eq, Hs. simpl.
  unfold bind, native, ret, log_call, set_servers. simpl.
  do 2 f_equal.
  apply map_eq; intros p. destruct (decide (this = p)) as [<- | Hne].
  - by rewrite lookup_alter_eq, lookup_insert_eq, Hs.
  - by rewrite lookup_alter_ne, lookup_insert_ne.
Qed.

(** A method called on a receiver that is no Server, or on one that wraps
    nothing, changes nothing. *)
Ltac no_effect :=
  unfold throw; eexists; split; [reflexivity | intros ?; discriminate].

Lemma run_method_no_server `{NativeEngine} m info w :
  (forall this, This info = VServer this -> servers w !! this = None) ->
  exists r, run_method m info w = (r, w) /\ (forall a, r <> Normal a).
Proof.
  intros Hnone.
  destruct (This info) as [| | | | | | | | this | | |] eqn:Hthis;
    try (destruct m; simpl;
         unfold RequestCall, AddHttp2Port, Start, TryShutdown, ForceShutdown;
         rewrite Hthis; simpl; no_effect).
  specialize (Hnone this eq_refl).
  destruct m; simpl;
    unfold RequestCall, AddHttp2Port, Start, TryShutdown, ForceShutdown;
    rewrite Hthis; simpl.
  - unfold bind at 1, Unwrap. rewrite Hnone. no_effect.
  - destruct (IsString (arg info 0)); simpl; [| no_effect].
    destruct (ServerCredentials_HasInstance (arg info 1)); simpl; [| no_effect].
    unfold bind at 1, Unwrap. rewrite Hnone. no_effect.
  - unfold bind at 1, Unwrap. rewrite Hnone. no_effect.
  - destruct (IsFunction (arg info 0)); simpl; [| no_effect].
    unfold bind at 1, Unwrap. rewrite Hnone. no_effect.
  - unfold bind at 1, Unwrap. rewrite Hnone. no_effect.
Qed.

Ltac calls_ok :=
  repeat match goal with
         | |- Forall _ (_ :: _) => constructor
         | |- Forall _ [] => constructor
         end; simpl; auto.

(** What a method does on a receiver that wraps a server: it appends calls
    that aim at the native server of the receiver, and it leaves the objects
    alone, but for [Start], which sets the self-reference of the receiver. *)
Lemma run_method_effect `{NativeEngine} m info this s w :
  This info = VServer this ->
  servers w !! this = Some s ->
  exists tr h,
    snd (run_method m info w) =
      {| servers := h; native_log := native_log w ++ tr;
         next_object := next_object w |} /\
    Forall (call_of_method info (wrapped_server s) this) tr /\
    (h = servers w \/
     m = m_start /\ h = <[this := hold_self_ref (VServer this) s]> (servers w)).
Proof.
  intros Hthis Hs.
  assert (Hquiet : forall r : Outcome Value,
            exists tr h,
              snd (r, w) =
                {| servers := h; native_log := native_log w ++ tr;
                   next_object := next_object w |} /\
              Forall (call_of_method info (wrapped_server s) this) tr /\
              (h = servers w \/
               m = m_start /\
               h = <[this := hold_self_ref (VServer this) s]> (servers w))).
  { intros r. exists [], (servers w). split; [| split; [constructor | by left]].
    simpl. rewrite app_nil_r. by destruct w. }
  destruct m; simpl.
  - pose proof (RequestCall_run info this s w Hthis Hs) as Hrun.
    simpl in Hrun. rewrite Hrun.
    destruct (Z.eqb _ GRPC_CALL_OK); eexists _, (servers w);
      (split; [reflexivity |]); (split; [| by left]); calls_ok.
  - rewrite (AddHttp2Port_run info this s w Hthis Hs).
    destruct (arg info 0) as [| | | addr | | | | | | | |]; try apply Hquiet.
    destruct (arg info 1) as [| | | | | | | | | creds | |]; try apply Hquiet.
    eexists _, (servers w). split; [reflexivity |]. split; [| by left].
    destruct creds; calls_ok.
  - rewrite (Start_run info this s w Hthis Hs).
    eexists _, _. split; [reflexivity |]. split; [| by right].
    calls_ok.
  - destruct (IsFunction (arg info 0)) eqn:Hcb.
    + rewrite (TryShutdown_run info this s w Hthis Hs Hcb).
      eexists _, (servers w). split; [reflexivity |]. split; [| by left].
      calls_ok.
    + unfold TryShutdown. rewrite Hthis, Hcb.
      apply (Hquiet (Throw (Error "tryShutdown's argument must be a callback"))).
  - rewrite (ForceShutdown_run info this s w Hthis Hs).
    destruct (is_shutdown s); [apply Hquiet |].
    eexists _, (servers w). split; [reflexivity |]. split; [| by left].
    calls_ok.
Qed.

(** X2: a method of the prototype that throws has changed nothing and has
    made no native call, with one exception: a request for a call that the
    native library refused stays in the log, and the exception then carries
    the code the library returned, which is not [GRPC_CALL_OK]. *)
Theorem throwing_method_has_no_effect `{NativeEngine} m info w e w' :
  run_method m info w = (Throw e, w') ->
  w' = w \/
  (m = m_requestCall /\
   exists srv code,
     w' = logged [grpc_server_request_call srv (new_call_tag (arg info 0))] w /\
     code = request_call_error (native_log w') /\
     code <> GRPC_CALL_OK /\
     e = ErrorWithCode "requestCall failed" code).
Proof.
  intros Hrun.
  destruct (This info) as [| | | | | | | | this | | |] eqn:Hthis;
    try (destruct (run_method_no_server m info w) as (r & Hr & _);
         [intros this Hcontra; congruence | left; congruence]).
  destruct (servers w !! this) as [s |] eqn:Hs.
  2: { destruct (run_method_no_server m info w) as (r & Hr & _);
       [intros p Hp; congruence | left; congruence]. }
  destruct m; simpl in Hrun.
  - pose proof (RequestCall_run info this s w Hthis Hs) as Hreq.
    simpl in Hreq. rewrite Hreq in Hrun.
    destruct (Z.eqb _ GRPC_CALL_OK) eqn:Herr; [discriminate |].
    right. split; [reflexivity |]. injection Hrun as <- <-.
    eexists _, _. split; [reflexivity |]. split; [reflexivity |].
    split; [by apply Z.eqb_neq | reflexivity].
  - rewrite (AddHttp2Port_run info this s w Hthis Hs) in Hrun.
    destruct (arg info 0); try (left; congruence).
    destruct (arg info 1); left; congruence.
  - rewrite (Start_run info this s w Hthis Hs) in Hrun. discriminate.
  - destruct (IsFunction (arg info 0)) eqn:Hcb.
    + rewrite (TryShutdown_run info this s w Hthis Hs Hcb) in Hrun. discriminate.
    + unfold TryShutdown in Hrun. rewrite Hthis, Hcb in Hrun.
      left. unfold throw in Hrun. simpl in Hrun. congruence.
  - rewrite (ForceShutdown_run info this s w Hthis Hs) in Hrun. discriminate.
Qed.

Lemma throwing_method_has_no_effect_witness :
  @run_method accepting_engine m_addHttp2Port (call_on (VServer 0) [VNumber 80])
    started_world =
    (Throw (TypeError "addHttp2Port's first argument must be a String"),
     started_world) /\
  (started_world = started_world \/
   (m_addHttp2Port = m_requestCall /\
    exists srv code,
      started_world =
        logged [grpc_server_request_call srv
                  (new_call_tag (arg (call_on (VServer 0) [VNumber 80]) 0))]
          started_world /\
      code = @request_call_error accepting_engine (native_log started_world) /\
      code <> @GRPC_CALL_OK accepting_engine /\
      TypeError "addHttp2Port's first argument must be a String" =
        ErrorWithCode "requestCall failed" code)).
Proof.
  split; [reflexivity |].
  exact (@throwing_method_has_no_effect accepting_engine m_addHttp2Port
           (call_on (VServer 0) [VNumber 80]) started_world _ _ eq_refl).
Defined.

(** X3: [RequestCall] checks neither that its argument is a function nor the
    state of the server: whenever the native library accepts the request, it
    is submitted with whatever value was passed as the continuation, an
    absent one included, and the queue is nudged once. *)
Theorem RequestCall_does_not_check_its_callback `{NativeEngine} info this s w :
  This info = VServer this ->
  servers w !! this = Some s ->
  request_call_error
    (native_log w ++
     [grpc_server_request_call (wrapped_server s) (new_call_tag (arg info 0))])
  = GRPC_CALL_OK ->
  RequestCall info w =
    (Normal VUndefined,
     logged [grpc_server_request_call (wrapped_server s)
               {| callback := arg info 0; ops := [OpNewCall NewCallOp_new];
                  tag_call := None; call_persist := VNull |};
             completion_queue_next] w).
Proof.
  intros Hthis Hs Hok.
  pose proof (RequestCall_run info this s w Hthis Hs) as Hrun.
  simpl in Hrun. rewrite Hrun, Hok, Z.eqb_refl. reflexivity.
Qed.

Lemma RequestCall_does_not_check_its_callback_witness :
  IsFunction (arg (call_on (VServer 0) []) 0) = false /\
  (is_shutdown <$> servers finished_world !! 0) = Some true /\
  @RequestCall accepting_engine (call_on (VServer 0) []) finished_world =
    (Normal VUndefined,
     logged [grpc_server_request_call 1
               {| callback := VUndefined; ops := [OpNewCall NewCallOp_new];
                  tag_call := None; call_persist := VNull |};
             completion_queue_next] finished_world).
Proof.
  split; [reflexivity |]. split; [reflexivity |].
  exact (@RequestCall_does_not_check_its_callback accepting_engine
           (call_on (VServer 0) []) 0
           {| wrapped_server := 1; is_shutdown := true; running_self_ref := None |}
           finished_world eq_refl eq_refl eq_refl).
Defined.

Lemma call_of_method_target info srv this c :
  call_of_method info srv this c ->
  c = completion_queue_next \/
  (native_target c = Some srv /\ creates_or_destroys c = false).
Proof.
  intros Hc. destruct c; simpl in Hc; try contradiction;
    try (by left); right; (split; [| reflexivity]); simpl;
    lazymatch type of Hc with
    | _ /\ _ => by rewrite (proj1 Hc)
    | _ => by rewrite Hc
    end.
Qed.

(** X4: a method of the prototype, called on a server, talks to the native
    server that this server wraps and to no other: every call it makes is the
    nudge of the queue or aims at the wrapped pointer of the receiver, and
    none creates or destroys a native server. *)
Theorem method_calls_only_its_own_server `{NativeEngine} m info this s w :
  This info = VServer this ->
  servers w !! this = Some s ->
  exists tr,
    native_log (snd (run_method m info w)) = native_log w ++ tr /\
    Forall (fun c =>
              c = completion_queue_next \/
              (native_target c = Some (wrapped_server s) /\
               creates_or_destroys c = false)) tr.
Proof.
  intros Hthis Hs.
  destruct (run_method_effect m info this s w Hthis Hs) as (tr & h & Hw & Hcalls & _).
  exists tr. rewrite Hw. split; [reflexivity |].
  eapply Forall_impl; [exact Hcalls |].
  intros c Hc. by apply (call_of_method_target info _ this).
Qed.

Lemma method_calls_only_its_own_server_witness :
  servers started_world !! 0 =
    Some {| wrapped_server := 1; is_shutdown := false;
            running_self_ref := Some (VServer 0) |} /\
  exists tr,
    native_log (snd (@run_method accepting_engine m_forceShutdown
                       (call_on (VServer 0) []) started_world)) =
      native_log started_world ++ tr /\
    Forall (fun c =>
              c = completion_queue_next \/
              (native_target c = Some 1 /\ creates_or_destroys c = false)) tr.
Proof.
  split; [reflexivity |].
  exact (@method_calls_only_its_own_server accepting_engine m_forceShutdown
           (call_on (VServer 0) []) 0
           {| wrapped_server := 1; is_shutdown := false;
              running_self_ref := Some (VServer 0) |}
           started_world eq_refl eq_refl).
Defined.

(** X5: every tag a method of the prototype hands to the native library has
    no call and a null [call_persist], and holds exactly one operation, which
    is not final: a fresh [NewCallOp], or a [ServerShutdownOp] that points back
    at the receiver.  Its continuation is the first argument of the method, or
    the built-in callback of the forced shutdown. *)
Theorem submitted_tag_holds_one_open_op `{NativeEngine} `{CallHelpers}
  m info this s w :
  This info = VServer this ->
  servers w !! this = Some s ->
  exists tr,
    native_log (snd (run_method m info w)) = native_log w ++ tr /\
    forall c t,
      In c tr -> tag_of c = Some t ->
      tag_call t = None /\ call_persist t = VNull /\
      (callback t = arg info 0 \/ callback t = VShutdownCb) /\
      exists o, ops t = [o] /\ IsFinalOp o = false /\
                (o = OpNewCall NewCallOp_new \/ o = OpShutdown {| server := this |}).
Proof.
  intros Hthis Hs.
  destruct (run_method_effect m info this s w Hthis Hs) as (tr & h & Hw & Hcalls & _).
  exists tr. rewrite Hw. split; [reflexivity |].
  intros c t Hin Htag.
  rewrite List.Forall_forall in Hcalls. specialize (Hcalls c Hin).
  destruct c; simpl in Htag; try discriminate; injection Htag as ->;
    simpl in Hcalls.
  - destruct Hcalls as [_ ->]. repeat split; [by left |].
    eexists. split; [reflexivity |]. split; [reflexivity | by left].
  - destruct Hcalls as [_ [-> | ->]]; (repeat split; [auto |]);
      eexists; (split; [reflexivity |]); (split; [reflexivity | by right]).
Qed.

Lemma submitted_tag_holds_one_open_op_witness :
  servers started_world !! 0 =
    Some {| wrapped_server := 1; is_shutdown := false;
            running_self_ref := Some (VServer 0) |} /\
  exists tr,
    native_log (snd (@run_method accepting_engine m_requestCall
                       (call_on (VServer 0) [VFunction 5]) started_world)) =
      native_log started_world ++ tr /\
    forall c t,
      In c tr -> tag_of c = Some t ->
      tag_call t = None /\ call_persist t = VNull /\
      (callback t = VFunction 5 \/ callback t = VShutdownCb) /\
      exists o, ops t = [o] /\ @IsFinalOp _ (@AnyOp_Op plain_helpers) o = false /\
                (o = OpNewCall NewCallOp_new \/ o = OpShutdown {| server := 0 |}).
Proof.
  split; [reflexivity |].
  exact (@submitted_tag_holds_one_open_op accepting_engine plain_helpers m_requestCall
           (call_on (VServer 0) [VFunction 5]) 0
           {| wrapped_server := 1; is_shutdown := false;
              running_self_ref := Some (VServer 0) |}
           started_world eq_refl eq_refl).
Defined.

(** X6: the operation in the tag that [TryShutdown] or [ForceShutdown] hands
    over points back at the server the method was called on.  When that
    operation completes with success, this server, and no other, is shut down
    and gives up its self-reference; when it completes without success,
    nothing changes.  The calls themselves leave every server as it was. *)
Theorem submitted_shutdown_op_completes_on_receiver `{NativeEngine} `{CallHelpers}
  m info this s w :
  m = m_tryShutdown \/ m = m_forceShutdown ->
  This info = VServer this ->
  servers w !! this = Some s ->
  exists tr,
    snd (run_method m info w) = logged tr w /\
    forall c t o,
      In c tr -> tag_of c = Some t -> In o (ops t) ->
      servers (OnComplete o true (logged tr w)) !! this = Some (FinishShutdown s) /\
      (forall p, p <> this ->
         servers (OnComplete o true (logged tr w)) !! p = servers w !! p) /\
      OnComplete o false (logged tr w) = logged tr w.
Proof.
  intros Hm Hthis Hs.
  destruct (run_method_effect m info this s w Hthis Hs)
    as (tr & h & Hw & Hcalls & [-> | [-> _]]).
  2: { destruct Hm; discriminate. }
  exists tr. split; [exact Hw |].
  intros c t o Hin Htag Ho.
  rewrite List.Forall_forall in Hcalls. specialize (Hcalls c Hin).
  assert (Ht : t = shutdown_tag (arg info 0) this \/ t = shutdown_tag VShutdownCb this).
  { destruct c; simpl in Htag; try discriminate; injection Htag as ->;
      simpl in Hcalls.
    - exfalso. destruct Hm as [-> | ->]; simpl in Hw.
      + destruct (IsFunction (arg info 0)) eqn:Hcb.
        * rewrite (TryShutdown_run info this s w Hthis Hs Hcb) in Hw.
          simpl in Hw. injection Hw as Hlog.
          apply app_inv_head in Hlog. subst tr.
          simpl in Hin. destruct Hin as [Hc | [Hc | []]]; discriminate.
        * unfold TryShutdown in Hw. rewrite Hthis, Hcb in Hw. simpl in Hw.
          destruct w as [sv lg nx]. simpl in Hw. injection Hw as Hlog.
          rewrite <- (app_nil_r lg) in Hlog at 1.
          apply app_inv_head in Hlog. subst tr. contradiction.
      + rewrite (ForceShutdown_run info this s w Hthis Hs) in Hw.
        destruct (is_shutdown s); simpl in Hw.
        * destruct w as [sv lg nx]. simpl in Hw. injection Hw as Hlog.
          rewrite <- (app_nil_r lg) in Hlog at 1.
          apply app_inv_head in Hlog. subst tr. contradiction.
        * injection Hw as Hlog. apply app_inv_head in Hlog. subst tr.
          simpl in Hin. destruct Hin as [Hc | [Hc | [Hc | []]]]; discriminate.
    - tauto. }
  assert (o = OpShutdown {| server := this |}) as ->.
  { destruct Ht as [-> | ->]; simpl in Ho; destruct Ho as [<- | []]; reflexivity. }
  change (OnComplete (OpShutdown {| server := this |}) true (logged tr w))
    with (call_FinishShutdown this (logged tr w)).
  change (OnComplete (OpShutdown {| server := this |}) false (logged tr w))
    with (logged tr w).
  split; [| split; [| reflexivity]].
  - by apply call_FinishShutdown_lookup.
  - intros p Hp. by rewrite call_FinishShutdown_other.
Qed.

Lemma submitted_shutdown_op_completes_on_receiver_witness :
  servers started_world !! 0 =
    Some {| wrapped_server := 1; is_shutdown := false;
            running_self_ref := Some (VServer 0) |} /\
  exists tr,
    snd (@run_method accepting_engine m_forceShutdown (call_on (VServer 0) [])
           started_world) = logged tr started_world /\
    forall c t o,
      In c tr -> tag_of c = Some t -> In o (ops t) ->
      servers (@OnComplete _ (@AnyOp_Op plain_helpers) o true
                 (logged tr started_world)) !! 0 =
        Some {| wrapped_server := 1; is_shutdown := true;
                running_self_ref := None |} /\
      (forall p, p <> 0 ->
         servers (@OnComplete _ (@AnyOp_Op plain_helpers) o true
                    (logged tr started_world)) !! p =
           servers started_world !! p) /\
      @OnComplete _ (@AnyOp_Op plain_helpers) o false (logged tr started_world) =
        logged tr started_world.
Proof.
  split; [reflexivity |].
  exact (@submitted_shutdown_op_completes_on_receiver accepting_engine plain_helpers
           m_forceShutdown (call_on (VServer 0) []) 0
           {| wrapped_server := 1; is_shutdown := false;
              running_self_ref := Some (VServer 0) |}
           started_world (or_intror eq_refl) eq_refl eq_refl).
Defined.

(** ** Construction and start *)

(** X7: on a configuration that [ParseChannelArgs] accepts, [New] creates one
    native server with the parsed arguments, registers the completion queue on
    the server just created, and wraps a [Server] that is not shut down and
    holds no self-reference; it returns the wrapping object.  Called as a
    constructor the wrapping object is the receiver; called as a plain
    function it is a new instance, and only the first argument is passed on.
    No other object changes. *)
Theorem New_creates_registers_and_wraps `{NativeEngine} `{ChannelArgsParser}
  info a obj w :
  ParseChannelArgs (arg info 0) = Some a ->
  (if IsConstructCall info then This info = VServer obj else obj = next_object w) ->
  let srv := created_server (native_log w ++ [grpc_server_create a]) in
  New info w =
    (Normal (VServer obj),
     {| servers := <[obj := Server_new srv]> (servers w);
        native_log := native_log w ++
          [grpc_server_create a; grpc_server_register_completion_queue srv];
        next_object :=
          if IsConstructCall info then next_object w else S (next_object w) |}) /\
  (forall p, p <> obj -> servers (snd (New info w)) !! p = servers w !! p).
Proof.
  intros Hparse Hobj srv.
  assert (Hrun : New info w =
    (Normal (VServer obj),
     {| servers := <[obj := Server_new srv]> (servers w);
        native_log := native_log w ++
          [grpc_server_create a; grpc_server_register_completion_queue srv];
        next_object :=
          if IsConstructCall info then next_object w else S (next_object w) |})).
  { unfold New. destruct (IsConstructCall info); simpl.
    - unfold New_construct. rewrite Hparse, Hobj. run_monad. reflexivity.
    - subst obj. unfold bind at 1, new_receiver.
      unfold New_construct.
      change (arg {| IsConstructCall := true; This := VServer (next_object w);
                     args := [arg info 0] |} 0) with (arg info 0).
      rewrite Hparse. run_monad. reflexivity. }
  split; [exact Hrun |].
  intros p Hp. rewrite Hrun. simpl. by rewrite lookup_insert_ne.
Qed.

Lemma New_creates_registers_and_wraps_witness :
  let info := call_on VUndefined [VObject [(PString "grpc.max_streams", VNumber 8)];
                                  VString "ignored"] in
  @ParseChannelArgs spec_parser (arg info 0) =
    Some (Some [("grpc.max_streams", GRPC_ARG_INTEGER 8)]) /\
  @New accepting_engine spec_parser info started_world =
    (Normal (VServer 1),
     {| servers :=
          <[1 := Server_new 4]> (servers started_world);
        native_log := native_log started_world ++
          [grpc_server_create (Some [("grpc.max_streams", GRPC_ARG_INTEGER 8)]);
           grpc_server_register_completion_queue 4];
        next_object := 2 |}).
Proof.
  split; [reflexivity |].
  exact (proj1 (@New_creates_registers_and_wraps accepting_engine spec_parser
                  (call_on VUndefined
                     [VObject [(PString "grpc.max_streams", VNumber 8)];
                      VString "ignored"])
                  (Some [("grpc.max_streams", GRPC_ARG_INTEGER 8)]) 1
                  started_world eq_refl eq_refl)).
Defined.

(** X8: [Start] is not guarded.  It takes the self-reference and starts the
    native server whatever the state of the server, shut down or already
    started; a second call starts the native server a second time and leaves
    the objects as the first call left them. *)
Theorem Start_is_not_guarded info this s w :
  This info = VServer this ->
  servers w !! this = Some s ->
  Start info w =
    (Normal VUndefined,
     {| servers := <[this := hold_self_ref (VServer this) s]> (servers w);
        native_log := native_log w ++ [grpc_server_start (wrapped_server s)];
        next_object := next_object w |}) /\
  snd (Start info (snd (Start info w))) =
    {| servers := <[this := hold_self_ref (VServer this) s]> (servers w);
       native_log := native_log w ++
         [grpc_server_start (wrapped_server s); grpc_server_start (wrapped_server s)];
       next_object := next_object w |}.
Proof.
  intros Hthis Hs.
  rewrite (Start_run info this s w Hthis Hs). split; [reflexivity |]. simpl.
  rewrite (Start_run info this (hold_self_ref (VServer this) s) _ Hthis);
    [| by simpl; rewrite lookup_insert_eq].
  simpl. rewrite insert_insert_eq, <- app_assoc. reflexivity.
Qed.

Lemma Start_is_not_guarded_witness :
  servers finished_world !! 0 =
    Some {| wrapped_server := 1; is_shutdown := true; running_self_ref := None |} /\
  Start (call_on (VServer 0) []) finished_world =
    (Normal VUndefined,
     {| servers :=
          <[0 := {| wrapped_server := 1; is_shutdown := true;
                    running_self_ref := Some (VServer 0) |}]>
            (servers finished_world);
        native_log := native_log finished_world ++ [grpc_server_start 1];
        next_object := next_object finished_world |}).
Proof.
  split; [reflexivity |].
  exact (proj1 (Start_is_not_guarded (call_on (VServer 0) []) 0
                  {| wrapped_server := 1; is_shutdown := true;
                     running_self_ref := None |}
                  finished_world eq_refl eq_refl)).
Defined.

(** ** Any sequence of method calls and completions *)

(** One step changes the objects in one of three ways at most. *)
Lemma run_step_servers `{NativeEngine} `{CallHelpers} st w :
  servers (run_step st w) = servers w \/
  (exists q, servers (run_step st w) =
             alter (hold_self_ref (VServer q)) q (servers w)) \/
  (exists q, completes_shutdown_of q st = true /\
             servers (run_step st w) = alter FinishShutdown q (servers w)).
Proof.
  destruct st as [m info | op success]; simpl.
  - destruct (This info) as [| | | | | | | | this | | |] eqn:Hthis;
      try (destruct (run_method_no_server m info w) as (r & -> & _);
           [intros this Hcontra; congruence | by left]).
    destruct (servers w !! this) as [s |] eqn:Hs.
    2: { destruct (run_method_no_server m info w) as (r & -> & _);
         [intros q Hq; congruence | by left]. }
    destruct (run_method_effect m info this s w Hthis Hs)
      as (tr & h & -> & _ & [-> | [_ ->]]); simpl; [by left |].
    right. left. exists this.
    apply map_eq; intros p. destruct (decide (this = p)) as [<- | Hne].
    + by rewrite lookup_alter_eq, lookup_insert_eq, Hs.
    + by rewrite lookup_alter_ne, lookup_insert_ne.
  - destruct op as [op | op]; [| by left].
    destruct success; [| by left].
    right. right. exists (server op). split; [| reflexivity].
    simpl. apply Nat.eqb_refl.
Qed.

Lemma run_step_none `{NativeEngine} `{CallHelpers} st w p :
  servers w !! p = None -> servers (run_step st w) !! p = None.
Proof.
  intros Hp.
  destruct (run_step_servers st w) as [-> | [[q ->] | [q [_ ->]]]]; [exact Hp | |];
    (destruct (decide (q = p)) as [-> | Hne];
     [by rewrite lookup_alter_eq, Hp | by rewrite lookup_alter_ne]).
Qed.

Lemma run_step_some `{NativeEngine} `{CallHelpers} st w p s :
  servers w !! p = Some s ->
  exists s',
    servers (run_step st w) !! p = Some s' /\
    wrapped_server s' = wrapped_server s /\
    (is_shutdown s' = is_shutdown s \/
     is_shutdown s' = true /\ completes_shutdown_of p st = true) /\
    (running_self_ref s' = running_self_ref s \/
     running_self_ref s' = None \/
     running_self_ref s' = Some (VServer p)).
Proof.
  intros Hp.
  destruct (run_step_servers st w) as [-> | [[q ->] | [q [Hq ->]]]].
  - exists s. repeat split; auto.
  - destruct (decide (q = p)) as [-> | Hne].
    + rewrite lookup_alter_eq, Hp. eexists. split; [reflexivity |].
      simpl. repeat split; auto.
    + rewrite lookup_alter_ne by done. exists s. repeat split; auto.
  - destruct (decide (q = p)) as [-> | Hne].
    + rewrite lookup_alter_eq, Hp. eexists. split; [reflexivity |].
      simpl. repeat split; auto.
    + rewrite lookup_alter_ne by done. exists s. repeat split; auto.
Qed.

Lemma run_steps_cons `{NativeEngine} `{CallHelpers} st steps w :
  run_steps (st :: steps) w = run_steps steps (run_step st w).
Proof. reflexivity. Qed.

Lemma run_steps_none `{NativeEngine} `{CallHelpers} steps w p :
  servers w !! p = None -> servers (run_steps steps w) !! p = None.
Proof.
  revert w. induction steps as [| st steps IH]; intros w Hp; [exact Hp |].
  rewrite run_steps_cons. apply IH. by apply run_step_none.
Qed.

Lemma run_steps_some `{NativeEngine} `{CallHelpers} steps w p s :
  servers w !! p = Some s ->
  exists s',
    servers (run_steps steps w) !! p = Some s' /\
    wrapped_server s' = wrapped_server s /\
    (is_shutdown s = true -> is_shutdown s' = true) /\
    (running_self_ref s' = running_self_ref s \/
     running_self_ref s' = None \/
     running_self_ref s' = Some (VServer p)).
Proof.
  revert w s. induction steps as [| st steps IH]; intros w s Hp.
  - exists s. repeat split; auto.
  - rewrite run_steps_cons.
    destruct (run_step_some st w p s Hp) as (s1 & Hs1 & Hw1 & Hflag & Href).
    destruct (IH (run_step st w) s1 Hs1) as (s' & Hs' & Hw' & Hkeep & Href').
    exists s'. split; [exact Hs' |]. split; [congruence |]. split.
    + intros Hshut. apply Hkeep. destruct Hflag as [-> | [-> _]]; auto.
    + destruct Href' as [-> | [-> | ->]]; auto.
Qed.

(** X9: along any sequence of method calls and completions no server object
    appears or disappears, the native pointer a server wraps never changes,
    and a server that is shut down stays shut down: nothing clears
    [is_shutdown]. *)
Theorem steps_keep_servers_and_shutdown `{NativeEngine} `{CallHelpers}
  steps w p :
  match servers w !! p with
  | None => servers (run_steps steps w) !! p = None
  | Some s =>
      exists s',
        servers (run_steps steps w) !! p = Some s' /\
        wrapped_server s' = wrapped_server s /\
        (is_shutdown s = true -> is_shutdown s' = true)
  end.
Proof.
  destruct (servers w !! p) as [s |] eqn:Hp.
  - destruct (run_steps_some steps w p s Hp) as (s' & Hs' & Hw' & Hkeep & _).
    by exists s'.
  - by apply run_steps_none.
Qed.

(** X10: only the successful completion of a shutdown of a server shuts it
    down.  Along a sequence of method calls and completions that holds no
    such completion for the server at [p], the server at [p] is not shut down
    at the end if it was not at the start. *)
Theorem no_shutdown_without_completion `{NativeEngine} `{CallHelpers}
  steps w p s :
  servers w !! p = Some s ->
  is_shutdown s = false ->
  existsb (completes_shutdown_of p) steps = false ->
  exists s', servers (run_steps steps w) !! p = Some s' /\ is_shutdown s' = false.
Proof.
  revert w s. induction steps as [| st steps IH]; intros w s Hp Hflag Hnone.
  - exists s. by split.
  - simpl in Hnone. apply orb_false_elim in Hnone as [Hst Hrest].
    rewrite run_steps_cons.
    destruct (run_step_some st w p s Hp) as (s1 & Hs1 & _ & Hs1flag & _).
    apply (IH (run_step st w) s1 Hs1); [| exact Hrest].
    destruct Hs1flag as [-> | [_ Hdone]]; [exact Hflag | congruence].
Qed.

Lemma no_shutdown_without_completion_witness :
  let steps :=
    [Invoke m_forceShutdown (call_on (VServer 0) []);
     Complete (OpShutdown {| server := 0 |}) false;
     Invoke m_start (call_on (VServer 0) []);
     Complete (OpNewCall NewCallOp_new) true] in
  servers started_world !! 0 =
    Some {| wrapped_server := 1; is_shutdown := false;
            running_self_ref := Some (VServer 0) |} /\
  existsb (completes_shutdown_of 0) steps = false /\
  exists s',
    servers (@run_steps accepting_engine plain_helpers steps started_world) !! 0
      = Some s' /\
    is_shutdown s' = false.
Proof.
  split; [reflexivity |]. split; [reflexivity |].
  exact (@no_shutdown_without_completion accepting_engine plain_helpers
           [Invoke m_forceShutdown (call_on (VServer 0) []);
            Complete (OpShutdown {| server := 0 |}) false;
            Invoke m_start (call_on (VServer 0) []);
            Complete (OpNewCall NewCallOp_new) true]
           started_world 0
           {| wrapped_server := 1; is_shutdown := false;
              running_self_ref := Some (VServer 0) |}
           eq_refl eq_refl eq_refl).
Defined.

(** X11: once a server is shut down, [ForceShutdown] on it is without effect
    for good: after any further method calls and completions it still returns
    normally, submits nothing and changes nothing. *)
Theorem ForceShutdown_stays_without_effect `{NativeEngine} `{CallHelpers}
  steps info p s w :
  This info = VServer p ->
  servers w !! p = Some s ->
  is_shutdown s = true ->
  ForceShutdown info (run_steps steps w) = (Normal VUndefined, run_steps steps w).
Proof.
  intros Hthis Hp Hshut.
  destruct (run_steps_some steps w p s Hp) as (s' & Hs' & _ & Hkeep & _).
  rewrite (ForceShutdown_run info p s' _ Hthis Hs').
  by rewrite (Hkeep Hshut).
Qed.

Lemma ForceShutdown_stays_without_effect_witness :
  let steps :=
    [Invoke m_start (call_on (VServer 0) []);
     Invoke m_tryShutdown (call_on (VServer 0) [VFunction 5]);
     Complete (OpShutdown {| server := 0 |}) false] in
  servers finished_world !! 0 =
    Some {| wrapped_server := 1; is_shutdown := true; running_self_ref := None |} /\
  ForceShutdown (call_on (VServer 0) [])
    (@run_steps accepting_engine plain_helpers steps finished_world) =
    (Normal VUndefined,
     @run_steps accepting_engine plain_helpers steps finished_world).
Proof.
  split; [reflexivity |].
  exact (@ForceShutdown_stays_without_effect accepting_engine plain_helpers
           [Invoke m_start (call_on (VServer 0) []);
            Invoke m_tryShutdown (call_on (VServer 0) [VFunction 5]);
            Complete (OpShutdown {| server := 0 |}) false]
           (call_on (VServer 0) []) 0
           {| wrapped_server := 1; is_shutdown := true; running_self_ref := None |}
           finished_world eq_refl eq_refl eq_refl).
Defined.

(** X12: the self-reference of a server is only ever set to the server's own
    handle: after any sequence of method calls and completions it is what it
    was at the start, or empty, or the handle of that very server. *)
Theorem self_reference_is_own_handle `{NativeEngine} `{CallHelpers}
  steps w p s :
  servers w !! p = Some s ->
  exists s',
    servers (run_steps steps w) !! p = Some s' /\
    (running_self_ref s' = running_self_ref s \/
     running_self_ref s' = None \/
     running_self_ref s' = Some (handle p)).
Proof.
  intros Hp.
  destruct (run_steps_some steps w p s Hp) as (s' & Hs' & _ & _ & Href).
  by exists s'.
Qed.

Lemma self_reference_is_own_handle_witness :
  let steps :=
    [Invoke m_start (call_on (VServer 0) [VNumber 3]);
     Invoke m_forceShutdown (call_on (VServer 0) [])] in
  servers created_world !! 0 =
    Some {| wrapped_server := 1; is_shutdown := false; running_self_ref := None |} /\
  exists s',
    servers (@run_steps accepting_engine plain_helpers steps created_world) !! 0
      = Some s' /\
    (running_self_ref s' = None \/
     running_self_ref s' = None \/
     running_self_ref s' = Some (handle 0)).
Proof.
  split; [reflexivity |].
  exact (@self_reference_is_own_handle accepting_engine plain_helpers
           [Invoke m_start (call_on (VServer 0) [VNumber 3]);
            Invoke m_forceShutdown (call_on (VServer 0) [])]
           created_world 0
           {| wrapped_server := 1; is_shutdown := false; running_self_ref := None |}
           eq_refl).
Defined.

Lemma run_step_log `{NativeEngine} `{CallHelpers} st w :
  exists tr,
    native_log (run_step st w) = native_log w ++ tr /\
    Forall (fun c =>
              c = completion_queue_next \/
              (creates_or_destroys c = false /\
               exists q sq, servers w !! q = Some sq /\
                            native_target c = Some (wrapped_server sq))) tr.
Proof.
  assert (Hquiet : forall w', native_log w' = native_log w ->
            exists tr,
              native_log w' = native_log w ++ tr /\
              Forall (fun c =>
                        c = completion_queue_next \/
                        (creates_or_destroys c = false /\
                         exists q sq, servers w !! q = Some sq /\
                                      native_target c = Some (wrapped_server sq)))
                     tr).
  { intros w' Hlog. exists []. split; [by rewrite app_nil_r | constructor]. }
  destruct st as [m info | op success]; simpl.
  - destruct (This info) as [| | | | | | | | this | | |] eqn:Hthis;
      try (destruct (run_method_no_server m info w) as (r & -> & _);
           [intros this Hcontra; congruence | by apply Hquiet]).
    destruct (servers w !! this) as [s |] eqn:Hs.
    2: { destruct (run_method_no_server m info w) as (r & -> & _);
         [intros q Hq; congruence | by apply Hquiet]. }
    destruct (run_method_effect m info this s w Hthis Hs)
      as (tr & h & -> & Hcalls & _); simpl.
    exists tr. split; [reflexivity |].
    eapply Forall_impl; [exact Hcalls |].
    intros c Hc.
    destruct (call_of_method_target info _ this c Hc) as [-> | [Htarget Hkind]];
      [by left | right].
    split; [exact Hkind |]. by exists this, s.
  - destruct op as [op | op]; [| by apply Hquiet].
    destruct success; by apply Hquiet.
Qed.

(** X13: whatever methods are called and whatever completes, the log only
    grows, and every call added is the nudge of the queue or a call on the
    native server wrapped by one of the servers that exist; no native server
    is created or destroyed. *)
Theorem steps_call_only_wrapped_servers `{NativeEngine} `{CallHelpers} steps w :
  exists tr,
    native_log (run_steps steps w) = native_log w ++ tr /\
    Forall (fun c =>
              c = completion_queue_next \/
              (creates_or_destroys c = false /\
               exists q sq, servers w !! q = Some sq /\
                            native_target c = Some (wrapped_server sq))) tr.
Proof.
  revert w. induction steps as [| st steps IH]; intros w.
  - exists []. split; [by rewrite app_nil_r | constructor].
  - rewrite run_steps_cons.
    destruct (run_step_log st w) as (tr1 & Hlog1 & Hcalls1).
    destruct (IH (run_step st w)) as (tr2 & Hlog2 & Hcalls2).
    exists (tr1 ++ tr2). split; [by rewrite Hlog2, Hlog1, app_assoc |].
    apply Forall_app. split; [exact Hcalls1 |].
    eapply Forall_impl; [exact Hcalls2 |].
    intros c [-> | [Hkind (q & sq & Hq & Htarget)]]; [by left | right].
    split; [exact Hkind |].
    destruct (servers w !! q) as [s0 |] eqn:Hq0.
    + destruct (run_step_some st w q s0 Hq0) as (s1 & Hs1 & Hw1 & _).
      exists q, s0. split; [exact Hq0 |]. congruence.
    + rewrite (run_step_none st w q Hq0) in Hq. discriminate.
Qed.

(** X14: the destructor destroys the native server that the object has
    wrapped since its construction, whatever was called and whatever
    completed in between, and whether or not the server was ever shut down;
    afterwards the host object wraps nothing. *)
Theorem destructor_destroys_the_wrapped_server `{NativeEngine} `{CallHelpers}
  steps w p s :
  servers w !! p = Some s ->
  exists w',
    Server_delete p (run_steps steps w) = (Normal tt, w') /\
    native_log w' =
      native_log (run_steps steps w) ++ [grpc_server_destroy (wrapped_server s)] /\
    servers w' !! p = None /\
    (forall q, q <> p -> servers w' !! q = servers (run_steps steps w) !! q).
Proof.
  intros Hp.
  destruct (run_steps_some steps w p s Hp) as (s' & Hs' & Hw' & _).
  unfold Server_delete. rewrite Hs', Hw'. eexists. split; [reflexivity |].
  simpl. split; [reflexivity |]. split; [by rewrite lookup_delete_eq |].
  intros q Hq. by rewrite lookup_delete_ne.
Qed.

Lemma destructor_destroys_the_wrapped_server_witness :
  let steps :=
    [Invoke m_start (call_on (VServer 0) []);
     Invoke m_requestCall (call_on (VServer 0) [VFunction 5])] in
  servers created_world !! 0 =
    Some {| wrapped_server := 1; is_shutdown := false; running_self_ref := None |} /\
  exists w',
    Server_delete 0 (@run_steps accepting_engine plain_helpers steps created_world) =
      (Normal tt, w') /\
    native_log w' =
      native_log (@run_steps accepting_engine plain_helpers steps created_world) ++
      [grpc_server_destroy 1] /\
    servers w' !! 0 = None /\
    (forall q, q <> 0 ->
       servers w' !! q =
         servers (@run_steps accepting_engine plain_helpers steps created_world) !! q).
Proof.
  split; [reflexivity |].
  exact (@destructor_destroys_the_wrapped_server accepting_engine plain_helpers
           [Invoke m_start (call_on (VServer 0) []);
            Invoke m_requestCall (call_on (VServer 0) [VFunction 5])]
           created_world 0
           {| wrapped_server := 1; is_shutdown := false; running_self_ref := None |}
           eq_refl).
Defined.

(** ** Argument errors of the shutdown entry points *)

(** X15: the continuation of a forced shutdown changes nothing, and it
    returns normally exactly when its first argument is null; with any other
    first argument, undefined or absent included, it throws. *)
Theorem ShutdownCallback_accepts_only_null info w :
  snd (ShutdownCallback info w) = w /\
  (fst (ShutdownCallback info w) = Normal VUndefined <-> arg info 0 = VNull) /\
  (arg info 0 <> VNull ->
   fst (ShutdownCallback info w) = Throw (Error "forceShutdown failed somehow")).
Proof.
  unfold ShutdownCallback.
  destruct (arg info 0); simpl; repeat split; try discriminate; try reflexivity;
    intros; congruence.
Qed.

(** X16: [TryShutdown] called on a Server without a function as its first
    argument leaves a plain Error pending, not a TypeError, and changes
    nothing.  The check comes before the server is unwrapped. *)
Theorem TryShutdown_requires_a_function info w :
  HasInstance (This info) = true ->
  IsFunction (arg info 0) = false ->
  TryShutdown info w =
    (Throw (Error "tryShutdown's argument must be a callback"), w).
Proof.
  intros Hinst Hcb. unfold TryShutdown. by rewrite Hinst, Hcb.
Qed.

Lemma TryShutdown_requires_a_function_witness :
  HasInstance (VServer 0) = true /\
  IsFunction (arg (call_on (VServer 0) []) 0) = false /\
  TryShutdown (call_on (VServer 0) []) started_world =
    (Throw (Error "tryShutdown's argument must be a callback"), started_world).
Proof.
  split; [reflexivity |]. split; [reflexivity |].
  exact (TryShutdown_requires_a_function (call_on (VServer 0) []) started_world
           eq_refl eq_refl).
Defined.
